(** * SageADB: the installer, the command runner and the logcat worker

    A shallow embedding of [SageADBv12.py], the later of the two
    versions of the application.  Python text is modelled by the
    Standard Library's strings, read as sequences of code points below
    256; paths follow [posixpath] ([os.sep] is "/").  Everything the
    program asks of its surroundings (the clock, the outcome of a child
    process, whether appending to [debug.txt] succeeds, the name
    [tempfile.mkdtemp] picks) is an oracle indexed by a tick counter
    kept in the state, so two calls may answer differently.

    Exceptions are values: a computation returns or raises, and keeps
    the state it reached either way.  Only exceptions that derive from
    [Exception] are modelled.

    The tree [root] is the file system but for [debug.txt], as the
    program's own calls ([mkdtemp], [extractall], [rmtree]) change it;
    what a child process does to the files is not modelled.  The text
    of [debug.txt] is a field of its own, and an append to it that
    fails is taken to have written nothing. *)

From Stdlib Require Import String Ascii List Arith Bool ZArith Lia.
From Stdlib Require Import Permutation Sorted.
Import ListNotations.
Open Scope string_scope.

(** ** Python [str] methods used by the program *)

Module PyStr.

Definition code (c : ascii) : nat := nat_of_ascii c.

Definition one_of (l : list nat) (c : ascii) : bool :=
  existsb (Nat.eqb (code c)) l.

(** [str.isspace] on one character. *)
Definition isspace : ascii -> bool :=
  one_of [9; 10; 11; 12; 13; 28; 29; 30; 31; 32; 133; 160].

(** The line boundaries of [str.splitlines]. *)
Definition islinebreak : ascii -> bool :=
  one_of [10; 11; 12; 13; 28; 29; 30; 133].

Definition lower_char (c : ascii) : ascii :=
  let n := code c in
  if (((65 <=? n) && (n <=? 90))
      || ((192 <=? n) && (n <=? 222) && negb (n =? 215)))%nat
  then ascii_of_nat (n + 32) else c.

Fixpoint lower (s : string) : string :=
  match s with
  | EmptyString => EmptyString
  | String c r => String (lower_char c) (lower r)
  end.

Fixpoint lstrip (s : string) : string :=
  match s with
  | EmptyString => EmptyString
  | String c r => if isspace c then lstrip r else s
  end.

Fixpoint rstrip (s : string) : string :=
  match s with
  | EmptyString => EmptyString
  | String c r =>
      match rstrip r with
      | EmptyString => if isspace c then EmptyString else String c EmptyString
      | r' => String c r'
      end
  end.

Definition strip (s : string) : string := rstrip (lstrip s).

(** [s.rstrip(ch)] for a single character [ch]. *)
Fixpoint rstrip_char (ch : ascii) (s : string) : string :=
  match s with
  | EmptyString => EmptyString
  | String c r =>
      match rstrip_char ch r with
      | EmptyString => if Ascii.eqb c ch then EmptyString else String c EmptyString
      | r' => String c r'
      end
  end.

Definition startswith (s pre : string) : bool := String.prefix pre s.

Fixpoint take (n : nat) (s : string) : string :=
  match n, s with
  | S n', String c r => String c (take n' r)
  | _, _ => EmptyString
  end.

Fixpoint drop (n : nat) (s : string) : string :=
  match n, s with
  | S n', String _ r => drop n' r
  | _, _ => s
  end.

Definition endswith (s suf : string) : bool :=
  (String.length suf <=? String.length s)%nat
  && String.eqb (drop (String.length s - String.length suf) s) suf.

(** [sub in s]. *)
Fixpoint contains (sub s : string) : bool :=
  String.prefix sub s
  || match s with
     | EmptyString => false
     | String _ r => contains sub r
     end.

(** [s.rfind(ch)]: the last index of [ch], or -1. *)
Fixpoint rfind (ch : ascii) (s : string) : Z :=
  match s with
  | EmptyString => (-1)%Z
  | String c r =>
      let k := rfind ch r in
      if (0 <=? k)%Z then (k + 1)%Z
      else if Ascii.eqb c ch then 0%Z else (-1)%Z
  end.

(** [s.split(ch)]. *)
Fixpoint split (ch : ascii) (s : string) : list string :=
  match s with
  | EmptyString => [EmptyString]
  | String c r =>
      if Ascii.eqb c ch then EmptyString :: split ch r
      else match split ch r with
           | h :: t => String c h :: t
           | [] => [String c EmptyString]
           end
  end.

Fixpoint splitlines_from (cur : string) (s : string) : list string :=
  match s with
  | EmptyString => match cur with EmptyString => [] | _ => [cur] end
  | String c r =>
      if islinebreak c then
        cur :: match r with
               | String c' r' =>
                   if ((code c =? 13) && (code c' =? 10))%nat
                   then splitlines_from EmptyString r'
                   else splitlines_from EmptyString r
               | EmptyString => []
               end
      else splitlines_from (cur ++ String c EmptyString) r
  end.

Definition splitlines (s : string) : list string :=
  splitlines_from EmptyString s.

(** [sep.join(l)]. *)
Definition join (sep : string) (l : list string) : string :=
  String.concat sep l.

(** Python truth value of a string. *)
Definition truthy (s : string) : bool :=
  negb (String.eqb s EmptyString).

End PyStr.

(** ** [posixpath] *)

Module PosixPath.
Import PyStr.

Definition sep : ascii := "/"%char.
Definition extsep : ascii := "."%char.

(** [posixpath.join(a, *p)]: one step of its loop, then the loop. *)
Definition join_step (path b : string) : string :=
  if startswith b "/" then b
  else if negb (truthy path) || endswith path "/" then path ++ b
  else path ++ "/" ++ b.

Definition join (a : string) (p : list string) : string :=
  fold_left join_step p a.

Definition all_sep (s : string) : bool :=
  String.eqb s (PyStr.join "" (repeat "/" (String.length s))).

(** [posixpath.split(p)]. *)
Definition split (p : string) : string * string :=
  let i := Z.to_nat (rfind sep p + 1) in
  let head := take i p in
  let tail := drop i p in
  let head := if truthy head && negb (all_sep head)
              then rstrip_char sep head else head in
  (head, tail).

(** [posixpath.basename(p)]. *)
Definition basename (p : string) : string :=
  drop (Z.to_nat (rfind sep p + 1)) p.

(** The [while filenameIndex < dotIndex] loop of [genericpath._splitext]:
    [n] is [dotIndex - filenameIndex]; true when a character other than
    the dot is met, which is where the source returns the split. *)
Fixpoint splitext_scan (p : string) (n filenameIndex : nat) : bool :=
  match n with
  | O => false
  | S n' =>
      if negb (String.eqb (take 1 (drop filenameIndex p)) ".") then true
      else splitext_scan p n' (S filenameIndex)
  end.

(** [posixpath.splitext(p)]. *)
Definition splitext (p : string) : string * string :=
  let sepIndex := rfind sep p in
  let dotIndex := rfind extsep p in
  if (sepIndex <? dotIndex)%Z
     && splitext_scan p (Z.to_nat (dotIndex - (sepIndex + 1)))
                        (Z.to_nat (sepIndex + 1))
  then (take (Z.to_nat dotIndex) p, drop (Z.to_nat dotIndex) p)
  else (p, EmptyString).

End PosixPath.

(** ** The file system

    A regular file is known by whether its bytes are a ZIP archive, and
    then by the tree the archive stores; a directory lists its entries
    in the order [os.scandir] reports them.  There are no symbolic
    links ([zipfile] does not create any). *)

Module FS.
Import PyStr.

#[local] Set Warnings "-register-all".

Inductive node : Type :=
| File (archive : option (list (string * node)))
| Dir (entries : list (string * node)).

Definition is_dir (n : node) : bool :=
  match n with Dir _ => true | File _ => false end.

Fixpoint lookup (name : string) (es : list (string * node)) : option node :=
  match es with
  | [] => None
  | (k, n) :: es' => if String.eqb k name then Some n else lookup name es'
  end.

Definition dirnames (es : list (string * node)) : list string :=
  map fst (filter (fun e => is_dir (snd e)) es).

Definition filenames (es : list (string * node)) : list string :=
  map fst (filter (fun e => negb (is_dir (snd e))) es).

(** Path resolution.  [stack] holds the directory reached so far and
    its ancestors, the root last. *)
Fixpoint resolve_from (stack : list node) (segs : list string)
  : option (list node) :=
  match segs with
  | [] => Some stack
  | seg :: rest =>
      match stack with
      | [] => None
      | File _ :: _ => None
      | Dir es :: up =>
          if String.eqb seg "" || String.eqb seg "." then
            resolve_from stack rest
          else if String.eqb seg ".." then
            resolve_from (match up with [] => stack | _ => up end) rest
          else
            match lookup seg es with
            | Some n => resolve_from (n :: stack) rest
            | None => None
            end
      end
  end.

Definition resolve (root : node) (cwd path : string) : option node :=
  if String.eqb path "" then None
  else
    let start :=
      if startswith path "/" then Some [root]
      else resolve_from [root] (split "/" cwd) in
    match start with
    | Some stack =>
        match resolve_from stack (split "/" path) with
        | Some (n :: _) => Some n
        | _ => None
        end
    | None => None
    end.

(** [os.path.exists]. *)
Definition exists_ (root : node) (cwd path : string) : bool :=
  match resolve root cwd path with Some _ => true | None => false end.

(** [os.listdir]; [None] stands for the [OSError] it raises. *)
Definition listdir (root : node) (cwd path : string) : option (list string) :=
  match resolve root cwd path with
  | Some (Dir es) => Some (map fst es)
  | _ => None
  end.

(** [os.walk(top)], top-down; a [top] that is no directory yields
    nothing (scan errors are ignored by default). *)
Definition walk_entry : Type := string * list string * list string.

Fixpoint walk_node (top : string) (n : node) {struct n} : list walk_entry :=
  match n with
  | File _ => []
  | Dir es =>
      (top, dirnames es, filenames es)
      :: (fix sub (l : list (string * node)) : list walk_entry :=
            match l with
            | [] => []
            | (name, child) :: l' =>
                (walk_node (PosixPath.join top [name]) child ++ sub l')%list
            end) es
  end.

Definition walk (root : node) (cwd top : string) : list walk_entry :=
  match resolve root cwd top with
  | Some n => walk_node top n
  | None => []
  end.

(** Updates at an absolute, normalised path given by its components. *)
Definition components (path : string) : list string :=
  filter truthy (split "/" path).

Fixpoint set_entry (name : string) (n : node) (es : list (string * node))
  : list (string * node) :=
  match es with
  | [] => [(name, n)]
  | (k, m) :: es' =>
      if String.eqb k name then (k, n) :: es' else (k, m) :: set_entry name n es'
  end.

Fixpoint del_entry (name : string) (es : list (string * node))
  : list (string * node) :=
  match es with
  | [] => []
  | (k, m) :: es' =>
      if String.eqb k name then es' else (k, m) :: del_entry name es'
  end.

Fixpoint put_at (segs : list string) (new : node) (n : node) : option node :=
  match segs with
  | [] => Some new
  | seg :: rest =>
      match n with
      | File _ => None
      | Dir es =>
          match rest with
          | [] => Some (Dir (set_entry seg new es))
          | _ =>
              match lookup seg es with
              | Some child =>
                  match put_at rest new child with
                  | Some child' => Some (Dir (set_entry seg child' es))
                  | None => None
                  end
              | None => None
              end
          end
      end
  end.

(** [shutil.rmtree(path, ignore_errors=True)]: the tree at [segs] is
    removed; nothing happens when it is not there. *)
Fixpoint remove_at (segs : list string) (n : node) : node :=
  match segs with
  | [] => n
  | seg :: rest =>
      match n with
      | File _ => n
      | Dir es =>
          match rest with
          | [] => Dir (del_entry seg es)
          | _ =>
              match lookup seg es with
              | Some child => Dir (set_entry seg (remove_at rest child) es)
              | None => n
              end
          end
      end
  end.

End FS.

(** ** Exceptions, and the state the program acts on *)

Inductive exn_kind : Type :=
| FileNotFoundError | FileExistsError | IsADirectoryError | PermissionError
| OSError | BadZipFile | TimeoutExpired | UnicodeDecodeError | ValueError
| TypeError | IndexError | RuntimeError.

(** Every kind above derives from [Exception]; [message] is [str(e)]. *)
Record exn : Type := { kind : exn_kind; message : string }.

Inductive outcome (A : Type) : Type :=
| Return (a : A)
| Raise (e : exn).
Arguments Return {A} a.
Arguments Raise {A} e.

(** [subprocess.CompletedProcess], with [text=True]. *)
Record completed : Type := { stdout : string; stderr : string }.

(** What the surroundings answer at a given tick.  [rmtree_leaves] is
    what a [shutil.rmtree] that fails, in part or in whole, leaves in
    the directory; [None] when the tree is removed. *)
Record world : Type := {
  now : nat -> string;
  append_ok : nat -> bool;
  append_error : nat -> string;
  subprocess_run : nat -> list string -> outcome completed;
  gettempdir : string;
  mkdtemp_suffix : nat -> string;
  rmtree_leaves : nat -> option (list (string * FS.node))
}.

(** [LogcatWorker]'s fields; [process] is the child's pid. *)
Record worker : Type := {
  worker_adb_path : string;
  _is_running : bool;
  process : option nat
}.

(** Calls on child processes and on the worker thread, as issued. *)
Inductive os_call : Type :=
| Terminate (pid : nat)
| Wait (pid : nat)
| Kill (pid : nat)
| ThreadQuit
| ThreadWait.

Record state : Type := {
  adb_path : string;
  base_path : string;
  root : FS.node;
  cwd : string;
  install_apk_input : string;
  log_output : list string;
  logcat_output : list string;
  debug_txt : string;
  printed : list string;
  dialogs : list (string * string);
  subprocess_calls : list (list string);
  logcat_thread : option unit;
  logcat_worker : option worker;
  start_logcat_btn : bool;
  stop_logcat_btn : bool;
  os_calls : list os_call;
  tick : nat
}.

Definition with_root (r : FS.node) (s : state) : state :=
  {| adb_path := adb_path s; base_path := base_path s; root := r;
     cwd := cwd s; install_apk_input := install_apk_input s;
     log_output := log_output s; logcat_output := logcat_output s;
     debug_txt := debug_txt s; printed := printed s; dialogs := dialogs s;
     subprocess_calls := subprocess_calls s;
     logcat_thread := logcat_thread s; logcat_worker := logcat_worker s;
     start_logcat_btn := start_logcat_btn s;
     stop_logcat_btn := stop_logcat_btn s;
     os_calls := os_calls s; tick := tick s |}.

Definition with_log_output (l : list string) (s : state) : state :=
  {| adb_path := adb_path s; base_path := base_path s; root := root s;
     cwd := cwd s; install_apk_input := install_apk_input s;
     log_output := l; logcat_output := logcat_output s;
     debug_txt := debug_txt s; printed := printed s; dialogs := dialogs s;
     subprocess_calls := subprocess_calls s;
     logcat_thread := logcat_thread s; logcat_worker := logcat_worker s;
     start_logcat_btn := start_logcat_btn s;
     stop_logcat_btn := stop_logcat_btn s;
     os_calls := os_calls s; tick := tick s |}.

Definition with_logcat_output (l : list string) (s : state) : state :=
  {| adb_path := adb_path s; base_path := base_path s; root := root s;
     cwd := cwd s; install_apk_input := install_apk_input s;
     log_output := log_output s; logcat_output := l;
     debug_txt := debug_txt s; printed := printed s; dialogs := dialogs s;
     subprocess_calls := subprocess_calls s;
     logcat_thread := logcat_thread s; logcat_worker := logcat_worker s;
     start_logcat_btn := start_logcat_btn s;
     stop_logcat_btn := stop_logcat_btn s;
     os_calls := os_calls s; tick := tick s |}.

Definition with_debug_txt (t : string) (s : state) : state :=
  {| adb_path := adb_path s; base_path := base_path s; root := root s;
     cwd := cwd s; install_apk_input := install_apk_input s;
     log_output := log_output s; logcat_output := logcat_output s;
     debug_txt := t; printed := printed s; dialogs := dialogs s;
     subprocess_calls := subprocess_calls s;
     logcat_thread := logcat_thread s; logcat_worker := logcat_worker s;
     start_logcat_btn := start_logcat_btn s;
     stop_logcat_btn := stop_logcat_btn s;
     os_calls := os_calls s; tick := tick s |}.

Definition with_printed (l : list string) (s : state) : state :=
  {| adb_path := adb_path s; base_path := base_path s; root := root s;
     cwd := cwd s; install_apk_input := install_apk_input s;
     log_output := log_output s; logcat_output := logcat_output s;
     debug_txt := debug_txt s; printed := l; dialogs := dialogs s;
     subprocess_calls := subprocess_calls s;
     logcat_thread := logcat_thread s; logcat_worker := logcat_worker s;
     start_logcat_btn := start_logcat_btn s;
     stop_logcat_btn := stop_logcat_btn s;
     os_calls := os_calls s; tick := tick s |}.

Definition with_dialogs (l : list (string * string)) (s : state) : state :=
  {| adb_path := adb_path s; base_path := base_path s; root := root s;
     cwd := cwd s; install_apk_input := install_apk_input s;
     log_output := log_output s; logcat_output := logcat_output s;
     debug_txt := debug_txt s; printed := printed s; dialogs := l;
     subprocess_calls := subprocess_calls s;
     logcat_thread := logcat_thread s; logcat_worker := logcat_worker s;
     start_logcat_btn := start_logcat_btn s;
     stop_logcat_btn := stop_logcat_btn s;
     os_calls := os_calls s; tick := tick s |}.

Definition with_subprocess_calls (l : list (list string)) (s : state) : state :=
  {| adb_path := adb_path s; base_path := base_path s; root := root s;
     cwd := cwd s; install_apk_input := install_apk_input s;
     log_output := log_output s; logcat_output := logcat_output s;
     debug_txt := debug_txt s; printed := printed s; dialogs := dialogs s;
     subprocess_calls := l;
     logcat_thread := logcat_thread s; logcat_worker := logcat_worker s;
     start_logcat_btn := start_logcat_btn s;
     stop_logcat_btn := stop_logcat_btn s;
     os_calls := os_calls s; tick := tick s |}.

Definition with_tick (n : nat) (s : state) : state :=
  {| adb_path := adb_path s; base_path := base_path s; root := root s;
     cwd := cwd s; install_apk_input := install_apk_input s;
     log_output := log_output s; logcat_output := logcat_output s;
     debug_txt := debug_txt s; printed := printed s; dialogs := dialogs s;
     subprocess_calls := subprocess_calls s;
     logcat_thread := logcat_thread s; logcat_worker := logcat_worker s;
     start_logcat_btn := start_logcat_btn s;
     stop_logcat_btn := stop_logcat_btn s;
     os_calls := os_calls s; tick := n |}.

(** The fields [stop_logcat] writes. *)
Definition with_logcat
  (t : option unit) (k : option worker) (start stop : bool)
  (calls : list os_call) (s : state) : state :=
  {| adb_path := adb_path s; base_path := base_path s; root := root s;
     cwd := cwd s; install_apk_input := install_apk_input s;
     log_output := log_output s; logcat_output := logcat_output s;
     debug_txt := debug_txt s; printed := printed s; dialogs := dialogs s;
     subprocess_calls := subprocess_calls s;
     logcat_thread := t; logcat_worker := k;
     start_logcat_btn := start; stop_logcat_btn := stop;
     os_calls := calls; tick := tick s |}.

(** ** A state monad in which a raise keeps the state reached *)

Definition M (A : Type) : Type := state -> outcome A * state.

Definition ret {A} (a : A) : M A := fun s => (Return a, s).

Definition bind {A B} (c : M A) (k : A -> M B) : M B :=
  fun s =>
    match c s with
    | (Return a, s') => k a s'
    | (Raise e, s') => (Raise e, s')
    end.

Definition raise {A} (e : exn) : M A := fun s => (Raise e, s).

(** [try: c  except Exception as e: h e]. *)
Definition try_except {A} (c : M A) (h : exn -> M A) : M A :=
  fun s =>
    match c s with
    | (Return a, s') => (Return a, s')
    | (Raise e, s') => h e s'
    end.

(** [try: c  finally: f]; an exception of [f] replaces the pending one. *)
Definition try_finally {A} (c : M A) (f : M unit) : M A :=
  fun s =>
    match c s with
    | (r, s') =>
        match f s' with
        | (Return _, s'') => (r, s'')
        | (Raise e, s'') => (Raise e, s'')
        end
    end.

Definition get {A} (f : state -> A) : M A := fun s => (Return (f s), s).
Definition modify (f : state -> state) : M unit := fun s => (Return tt, f s).

Declare Scope py_scope.
Delimit Scope py_scope with py.
Notation "x <- c ;; k" := (bind c (fun x => k))
  (at level 61, c at next level, right associativity) : py_scope.
Notation "c ;; k" := (bind c (fun _ => k))
  (at level 61, right associativity) : py_scope.

Fixpoint for_each {A} (l : list A) (body : A -> M unit) : M unit :=
  match l with
  | [] => ret tt
  | a :: l' => bind (body a) (fun _ => for_each l' body)
  end.

(** ** [list.sort(key=...)] and [dict]

    [list.sort] is stable; so is insertion from the right, which puts
    an element before the first one whose key is not smaller. *)

Section Sort.
Context {A K : Type} (key : A -> K) (leb : K -> K -> bool).

Fixpoint insert_by (x : A) (l : list A) : list A :=
  match l with
  | [] => [x]
  | y :: l' => if leb (key x) (key y) then x :: l else y :: insert_by x l'
  end.

Fixpoint sort_by (l : list A) : list A :=
  match l with
  | [] => []
  | x :: l' => insert_by x (sort_by l')
  end.
End Sort.

(** Order of the tuples [(int, str)] that [sort_key] returns. *)
Definition key_leb (a b : nat * string) : bool :=
  (fst a <? fst b)%nat || ((fst a =? fst b)%nat && String.leb (snd a) (snd b)).

(** A [dict] keeps its keys in the order of their first insertion. *)
Definition dict : Type := list (string * string).

Fixpoint dict_set (k v : string) (d : dict) : dict :=
  match d with
  | [] => [(k, v)]
  | (k', v') :: d' =>
      if String.eqb k' k then (k', v) :: d' else (k', v') :: dict_set k v d'
  end.

Fixpoint dict_get (k : string) (d : dict) : option string :=
  match d with
  | [] => None
  | (k', v') :: d' => if String.eqb k' k then Some v' else dict_get k d'
  end.

Definition nl : string := String "010"%char EmptyString.

(** ** [LogcatWorker] *)

Module LogcatWorker.
Import PyStr.

(** What one execution of [run] meets: the outcome of [Popen]; the
    lines the child's output delivers, each with the value of
    [_is_running] that the loop reads at that iteration (the flag is
    shared with the thread that calls [stop]); the exception that ends
    the stream, if any; what [poll] answers and whether [wait] raises in
    the [finally] block.  Whether [terminate] or [kill] raise changes
    nothing, both are swallowed. *)
Record execution : Type := {
  popen : outcome nat;
  lines : list (string * bool);
  stream_end : option exn;
  poll : outcome (option Z);
  wait_raises : bool
}.

Definition stopped : string := "Logcat stopped.".

Definition not_found : string :=
  "CRITICAL ERROR: adb executable not found. Make sure it's in the same folder as the script.".

(** [for line in self.process.stdout: ...]: the notifications emitted,
    and the exception that ends the loop, if any. *)
Fixpoint read_loop (ls : list (string * bool)) (e : option exn)
  : list string * option exn :=
  match ls with
  | [] => ([], e)
  | (line, running) :: rest =>
      if negb running then ([], None)
      else
        let (out, r) := read_loop rest e in
        ((if truthy line then rstrip line :: out else out), r)
  end.

(** The [except] clauses. *)
Definition on_exception (e : exn) : list string :=
  match kind e with
  | FileNotFoundError => [not_found]
  | _ => ["CRITICAL ERROR starting logcat: " ++ message e]
  end.

(** The [finally] block up to its last statement. *)
Definition shutdown (x : execution) (proc : option nat) : list os_call :=
  match proc with
  | None => []
  | Some pid =>
      match poll x with
      | Return None =>
          (Terminate pid :: Wait pid
           :: (if wait_raises x then [Kill pid] else []))%list
      | _ => []
      end
  end.

(** [run]: [self.process] after it, the [newLine] notifications in
    order, and the calls on the child process. *)
Definition run (k : worker) (x : execution)
  : option nat * list string * list os_call :=
  let proc :=
    match popen x with Return pid => Some pid | Raise _ => process k end in
  let body :=
    match popen x with
    | Raise e => on_exception e
    | Return _ =>
        let (out, r) := read_loop (lines x) (stream_end x) in
        (out ++ match r with Some e => on_exception e | None => [] end)%list
    end in
  (proc, (body ++ [stopped])%list, shutdown x proc).

(** [stop]. *)
Definition stop (k : worker) : worker * list os_call :=
  ({| worker_adb_path := worker_adb_path k;
      _is_running := false;
      process := process k |},
   match process k with Some pid => [Terminate pid] | None => [] end).

End LogcatWorker.

(** ** What the installer finds in an extracted archive *)

Section Archive.
Import PyStr.

Variables (root : FS.node) (cwd : string).

Definition is_apk (fname : string) : bool := endswith (lower fname) ".apk".
Definition is_obb (fname : string) : bool := endswith (lower fname) ".obb".

Definition sort_key (p : string) : nat * string :=
  let name := lower (PosixPath.basename p) in
  ((if contains "base" name || String.eqb name "base.apk" then 0 else 1)%nat,
   name).

(** The paths appended by the two nested loops, in walk order. *)
Definition apk_paths (root_dir : string) : list string :=
  flat_map
    (fun e : FS.walk_entry =>
       let '(r, _, files) := e in
       map (fun fname => PosixPath.join r [fname]) (filter is_apk files))
    (FS.walk root cwd root_dir).

Definition _collect_apk_files (root_dir : string) : list string :=
  sort_by sort_key key_leb (apk_paths root_dir).

(** The [while True] loop that takes [r] apart with [os.path.split];
    [None] when [fuel] iterations do not reach its [break]. *)
Fixpoint parts_loop (fuel : nat) (rp : string) (parts : list string)
  : option (list string) :=
  match fuel with
  | O => None
  | S fuel' =>
      let (rp', tail) := PosixPath.split rp in
      if truthy tail then parts_loop fuel' rp' (parts ++ [tail])%list
      else Some (if truthy rp' then (parts ++ [rp'])%list else parts)
  end.

(** [parts], from root to leaf, lower-cased. *)
Definition path_parts (r : string) : option (list string) :=
  match parts_loop (S (String.length r)) r [] with
  | Some parts => Some (rev (map lower parts))
  | None => None
  end.

(** [l.index(x, start)], when [x] occurs from [start] on. *)
Fixpoint index (x : string) (l : list string) (start : nat) : option nat :=
  match l with
  | [] => None
  | y :: l' =>
      match start with
      | S start' => option_map S (index x l' start')
      | O => if String.eqb y x then Some 0%nat else option_map S (index x l' 0)
      end
  end.

Definition elem (x : string) (l : list string) : bool :=
  existsb (String.eqb x) l.

(** [for i, seg in enumerate(path_segments)]: the first [i] at which the
    [if] holds, where the loop breaks. *)
Fixpoint first_obb (segs : list string) (i len : nat) : option nat :=
  match segs with
  | [] => None
  | seg :: rest =>
      if String.eqb (lower seg) "obb" && (i + 1 <? len)%nat then Some i
      else first_obb rest (S i) len
  end.

(** One iteration of the walk loop of [_find_obb_package_dirs]: the
    assignment [obb_pkg_dirs[key] = value] it performs, if it performs
    one.  An exception inside the [try] leaves the mapping alone. *)
Definition obb_candidate (e : FS.walk_entry) : option (string * string) :=
  let '(r, _, files) := e in
  match filter is_obb files with
  | [] => None
  | _ :: _ =>
      match path_parts r with
      | None => None
      | Some parts =>
          if elem "android" parts then
            match index "android" parts 0 with
            | None => None
            | Some idx_android =>
                if elem "obb" (skipn (idx_android + 1) parts) then
                  match index "obb" parts (idx_android + 1) with
                  | None => None
                  | Some idx_obb =>
                      if (idx_obb + 1 <? length parts)%nat then
                        let path_segments := split "/" r in
                        match first_obb path_segments 0 (length path_segments) with
                        | None => None
                        | Some i =>
                            match firstn (i + 2) path_segments with
                            | [] => None
                            | a :: p =>
                                let pkg_dir_real := PosixPath.join a p in
                                match FS.listdir root cwd pkg_dir_real with
                                | None => None
                                | Some names =>
                                    if existsb is_obb names
                                    then Some (PosixPath.basename pkg_dir_real,
                                               pkg_dir_real)
                                    else None
                                end
                            end
                        end
                      else None
                  end
                else None
            end
          else None
      end
  end.

Definition obb_visit (obb_pkg_dirs : dict) (e : FS.walk_entry) : dict :=
  match obb_candidate e with
  | Some (k, v) => dict_set k v obb_pkg_dirs
  | None => obb_pkg_dirs
  end.

Definition _find_obb_package_dirs (root_dir : string) : dict :=
  fold_left obb_visit (FS.walk root cwd root_dir) [].

End Archive.

(** ** [MainWindow] *)

Section MainWindow.
Import PyStr.
Local Open Scope py_scope.

Variable w : world.

Definition critical (title text : string) : M unit :=
  modify (fun s => with_dialogs (dialogs s ++ [(title, text)])%list s).

(** [subprocess.run(args, ...)]. *)
Definition call_subprocess (args : list string) : M completed :=
  fun s =>
    (subprocess_run w (tick s) args,
     with_tick (S (tick s))
       (with_subprocess_calls (subprocess_calls s ++ [args])%list s)).

(** Appending [text] to [debug.txt]; on failure [report] is printed,
    and the file is taken to be as before. *)
Definition append_debug (text : string) (report : string) (s : state) : state :=
  if append_ok w (tick s)
  then with_debug_txt (debug_txt s ++ text) s
  else with_printed (printed s ++ [(report ++ append_error w (tick s))%string])%list s.

Definition _log (command output : string) : M unit :=
  fun s =>
    let timestamp := now w (tick s) in
    let cmd_entry := "[" ++ timestamp ++ "] $ " ++ command in
    let cleaned_output := strip output in
    let shown := truthy output && truthy cleaned_output in
    let full_log_entry :=
      (if truthy command then cmd_entry ++ nl else "")
      ++ (if shown
          then String.concat ""
                 (map (fun line => "[" ++ timestamp ++ "] > " ++ line ++ nl)
                      (splitlines cleaned_output))
          else "") in
    let s1 :=
      with_log_output
        (log_output s
         ++ (if truthy command then [cmd_entry] else [])
         ++ (if shown
             then [("[" ++ timestamp ++ "] > " ++ cleaned_output)%string]
             else []))%list s in
    (Return tt,
     with_tick (S (tick s))
       (append_debug full_log_entry "Failed to write to debug.txt: " s1)).

Definition update_logcat_and_debug_file (line : string) : M unit :=
  fun s =>
    let s1 := with_logcat_output (logcat_output s ++ [line])%list s in
    let timestamp := now w (tick s) in
    (Return tt,
     with_tick (S (tick s))
       (append_debug ("[" ++ timestamp ++ "] [LOGCAT] " ++ line ++ nl)
          "Failed to write logcat line to debug.txt: " s1)).

Definition run_adb_command (args : list string) (return_output : bool)
  : M (option string) :=
  try_except
    (result <- call_subprocess args ;;
     let output := strip (stdout result) ++ nl ++ strip (stderr result) in
     _log (join " " args) output ;;
     ret (if return_output then Some (stdout result) else None))
    (fun e =>
       critical "Error" (message e) ;;
       _log ("Error running command: " ++ join " " args) (message e) ;;
       ret None).

Definition _bundletool_path : M string :=
  get (fun s => PosixPath.join (base_path s) ["bundletool.jar"]).

(** [tempfile.mkdtemp(prefix=...)]: a new empty directory under
    [gettempdir], which is an absolute, normalised path. *)
Definition mkdtemp (prefix : string) : M string :=
  fun s =>
    let d := PosixPath.join (gettempdir w) [prefix ++ mkdtemp_suffix w (tick s)] in
    let s' := with_tick (S (tick s)) s in
    if FS.exists_ (root s) (cwd s) d then
      (Raise {| kind := FileExistsError;
                message := "[Errno 17] No usable temporary directory name found" |},
       s')
    else
      match FS.put_at (FS.components d) (FS.Dir []) (root s) with
      | Some r => (Return d, with_root r s')
      | None =>
          (Raise {| kind := FileNotFoundError;
                    message := "[Errno 2] No such file or directory: '"
                               ++ d ++ "'" |}, s')
      end.

(** [with zipfile.ZipFile(pkg_path, 'r') as zf: zf.extractall(temp_dir)]. *)
Definition extractall (pkg_path temp_dir : string) : M unit :=
  fun s =>
    match FS.resolve (root s) (cwd s) pkg_path with
    | None =>
        (Raise {| kind := FileNotFoundError;
                  message := "[Errno 2] No such file or directory: '"
                             ++ pkg_path ++ "'" |}, s)
    | Some (FS.Dir _) =>
        (Raise {| kind := IsADirectoryError;
                  message := "[Errno 21] Is a directory: '"
                             ++ pkg_path ++ "'" |}, s)
    | Some (FS.File None) =>
        (Raise {| kind := BadZipFile; message := "File is not a zip file" |}, s)
    | Some (FS.File (Some tree)) =>
        match FS.put_at (FS.components temp_dir) (FS.Dir tree) (root s) with
        | Some r => (Return tt, with_root r s)
        | None =>
            (Raise {| kind := FileNotFoundError;
                      message := "[Errno 2] No such file or directory: '"
                                 ++ temp_dir ++ "'" |}, s)
        end
    end.

Definition _extract_zip_to_temp (pkg_path : string) : M string :=
  temp_dir <- mkdtemp "sageadb_" ;;
  extractall pkg_path temp_dir ;;
  ret temp_dir.

(** [shutil.rmtree(temp_dir, ignore_errors=True)]: best effort, the
    errors are ignored and what could not be removed stays. *)
Definition rmtree (path : string) : M unit :=
  modify (fun s =>
    match rmtree_leaves w (tick s) with
    | None => with_root (FS.remove_at (FS.components path) (root s)) s
    | Some kept =>
        match FS.put_at (FS.components path) (FS.Dir kept) (root s) with
        | Some r => with_root r s
        | None => s
        end
    end).

Definition _push_obb_dirs (obb_pkg_dirs : dict) : M unit :=
  for_each obb_pkg_dirs
    (fun item =>
       let (pkg, local_dir) := item in
       let remote_pkg_dir := "/sdcard/Android/obb/" ++ pkg in
       adb <- get adb_path ;;
       run_adb_command [adb; "shell"; "mkdir"; "-p"; remote_pkg_dir] false ;;
       _log "" ("Pushing OBB assets for " ++ pkg ++ "...") ;;
       run_adb_command [adb; "push"; local_dir; remote_pkg_dir] false ;;
       ret tt).

(** Case 2 of [install_app]: [.apks] through bundletool. *)
Definition install_apks (path : string) : M unit :=
  bt <- _bundletool_path ;;
  found <- get (fun s => FS.exists_ (root s) (cwd s) bt) ;;
  if negb found then
    base <- get base_path ;;
    critical "Error" ("bundletool.jar not found in:" ++ nl ++ base) ;;
    _log "" "bundletool.jar is required to install .apks archives."
  else
    adb <- get adb_path ;;
    let cmd := ["java"; "-jar"; bt; "install-apks";
                "--apks=" ++ path; "--adb=" ++ adb] in
    try_except
      (result <- call_subprocess cmd ;;
       let output := strip (stdout result) ++ nl ++ strip (stderr result) in
       _log (join " " cmd) output)
      (fun e =>
         critical "Error" (message e) ;;
         _log (join " " cmd) ("Error running bundletool: " ++ message e)).

(** Case 3, the [try] body after [temp_dir] is assigned. *)
Definition install_extracted (ext temp_dir : string) : M unit :=
  apk_files <- get (fun s => _collect_apk_files (root s) (cwd s) temp_dir) ;;
  match apk_files with
  | [] => _log "" ("No .apk files found inside " ++ ext ++ " package.")
  | _ :: _ =>
      adb <- get adb_path ;;
      let cmd := (adb :: "install-multiple" :: apk_files)%list in
      result <- call_subprocess cmd ;;
      let output := strip (stdout result) ++ nl ++ strip (stderr result) in
      _log (join " " cmd) output
  end ;;
  obb_pkg_dirs <- get (fun s => _find_obb_package_dirs (root s) (cwd s) temp_dir) ;;
  match obb_pkg_dirs with
  | _ :: _ =>
      let pkgs := join ", " (sort_by (fun k => k) String.leb (map fst obb_pkg_dirs)) in
      _log "" ("Detected OBB packages: " ++ pkgs) ;;
      _push_obb_dirs obb_pkg_dirs
  | [] => _log "" "No OBB assets detected in this package."
  end.

(** Case 3, the [except] clauses. *)
Definition on_split_error (ext path : string) (e : exn) : M unit :=
  match kind e with
  | BadZipFile =>
      critical "Error" ("Invalid " ++ ext ++ " file (not a valid ZIP archive).") ;;
      _log "" ("Failed to read " ++ path ++ ": invalid archive.")
  | _ =>
      critical "Error" (message e) ;;
      _log "" ("Error installing split package: " ++ message e)
  end.

(** Case 3, the [finally] block; [temp_dir] is the local variable, still
    [None] when [_extract_zip_to_temp] raised. *)
Definition split_cleanup (temp_dir : option string) : M unit :=
  match temp_dir with
  | Some d => if truthy d then rmtree d else ret tt
  | None => ret tt
  end.

Definition install_split (ext path : string) : M unit :=
  fun s =>
    match _extract_zip_to_temp path s with
    | (Return temp_dir, s1) =>
        try_finally
          (try_except (install_extracted ext temp_dir) (on_split_error ext path))
          (split_cleanup (Some temp_dir)) s1
    | (Raise e, s1) =>
        try_finally (on_split_error ext path e) (split_cleanup None) s1
    end.

Definition install_app : M unit :=
  text <- get install_apk_input ;;
  let path := strip text in
  if negb (truthy path) then _log "" "No APK path specified."
  else
    let ext := lower (snd (PosixPath.splitext path)) in
    if String.eqb ext ".apk" then
      adb <- get adb_path ;;
      run_adb_command [adb; "install"; path] false ;;
      ret tt
    else if String.eqb ext ".apks" then install_apks path
    else if String.eqb ext ".apkm" || String.eqb ext ".xapk" then
      install_split ext path
    else
      _log "" ("Unsupported file type: " ++ ext
               ++ ". Supported: .apk, .apkm, .xapk, .apks").

(** [start_logcat], as far as this thread goes: [LogcatWorker.run]
    executes on the new thread. *)
Definition start_logcat : M unit :=
  modify (fun s =>
    with_logcat (Some tt)
      (Some {| worker_adb_path := adb_path s; _is_running := false;
               process := None |})
      false true (os_calls s) (with_logcat_output [] s)).

Definition stop_logcat : M unit :=
  modify (fun s =>
    let calls1 :=
      match logcat_worker s with
      | Some k => snd (LogcatWorker.stop k)
      | None => []
      end in
    let calls2 :=
      match logcat_thread s with
      | Some _ => [ThreadQuit; ThreadWait]
      | None => []
      end in
    with_logcat None None true false (os_calls s ++ calls1 ++ calls2)%list s).

End MainWindow.

(** ** Notions the statements below use *)

(** [contains_file top n p name]: the tree [n], walked from the path
    [top], holds a regular file called [name] whose path is [p]. *)
Inductive contains_file : string -> FS.node -> string -> string -> Prop :=
| cf_here top es name a :
    In (name, FS.File a) es ->
    contains_file top (FS.Dir es) (PosixPath.join top [name]) name
| cf_below top es d child p name :
    In (d, child) es ->
    contains_file (PosixPath.join top [d]) child p name ->
    contains_file top (FS.Dir es) p name.

(** The first component of [sort_key]: the lower-cased basename holds
    the token. *)
Definition has_base (p : string) : bool :=
  PyStr.contains "base" (PyStr.lower (PosixPath.basename p)).

(** [l] holds [p] at an earlier place than [q]. *)
Definition precedes (l : list string) (p q : string) : Prop :=
  forall i j, nth_error l i = Some p -> nth_error l j = Some q -> i < j.

(** The lines [LogcatWorker.run] reads while it still sees
    [_is_running] set. *)
Fixpoint seen_before_stop (ls : list (string * bool)) : list string :=
  match ls with
  | (line, true) :: rest => line :: seen_before_stop rest
  | _ => []
  end.

(** A call of one of the two functions that write to the interface and
    to [debug.txt]. *)
Inductive log_op : Type :=
| Log (command output : string)
| Logcat (line : string).

Definition run_op (w : world) (o : log_op) : M unit :=
  match o with
  | Log command output => _log w command output
  | Logcat line => update_logcat_and_debug_file w line
  end.

Definition run_ops (w : world) (ops : list log_op) (s : state) : state :=
  fold_left (fun s o => snd (run_op w o s)) ops s.

(** What is shown and what is on file: the main log, the logcat view,
    and the text of [debug.txt]. *)
Definition view : Type := list string * list string * string.

Definition view_of (s : state) : view :=
  (log_output s, logcat_output s, debug_txt s).


(** [only_logged w s output s']: from [s] to [s'] the message [output]
    was logged and nothing else happened: its entry is the only
    addition to the main log; its lines went to [debug.txt], or a report
    of the failed append was printed; every other field is as before. *)
Definition only_logged (w : world) (s : state) (output : string) (s' : state)
  : Prop :=
  log_output s'
  = (log_output s ++ [("[" ++ now w (tick s) ++ "] > " ++ output)%string])%list
  /\ (if append_ok w (tick s)
      then debug_txt s'
           = debug_txt s
             ++ String.concat ""
                  (map (fun line => "[" ++ now w (tick s) ++ "] > " ++ line ++ nl)
                       (PyStr.splitlines output))
           /\ printed s' = printed s
      else debug_txt s' = debug_txt s
           /\ exists report, printed s' = (printed s ++ [report])%list)
  /\ tick s' = S (tick s)
  /\ adb_path s' = adb_path s
  /\ base_path s' = base_path s
  /\ root s' = root s
  /\ cwd s' = cwd s
  /\ install_apk_input s' = install_apk_input s
  /\ logcat_output s' = logcat_output s
  /\ dialogs s' = dialogs s
  /\ subprocess_calls s' = subprocess_calls s
  /\ logcat_thread s' = logcat_thread s
  /\ logcat_worker s' = logcat_worker s
  /\ start_logcat_btn s' = start_logcat_btn s
  /\ stop_logcat_btn s' = stop_logcat_btn s
  /\ os_calls s' = os_calls s.

(** A path component that names an entry: not empty, not [.], not [..]. *)
Definition plain (seg : string) : Prop :=
  seg <> "" /\ seg <> "." /\ seg <> "..".

(** *** Sample surroundings *)

Definition quiet_world : world :=
  {| now := fun _ => "12:00:00";
     append_ok := fun _ => true;
     append_error := fun _ => "";
     subprocess_run := fun _ _ => Return {| stdout := "Success"; stderr := "" |};
     gettempdir := "/tmp";
     mkdtemp_suffix := fun _ => "ab12cd34";
     rmtree_leaves := fun _ => None |}.

(** A world in which nothing can be launched and the log file cannot be
    appended to. *)
Definition hostile_world : world :=
  {| now := fun _ => "12:00:00";
     append_ok := fun _ => false;
     append_error := fun _ => "[Errno 13] Permission denied: 'debug.txt'";
     subprocess_run := fun _ _ =>
       Raise {| kind := FileNotFoundError;
                message := "[Errno 2] No such file or directory: 'adb.exe'" |};
     gettempdir := "/tmp";
     mkdtemp_suffix := fun _ => "ab12cd34";
     rmtree_leaves := fun _ => None |}.

(** An archive with a base package, a split and bundled assets. *)
Definition sample_archive : list (string * FS.node) :=
  [("split1.apk", FS.File None);
   ("base.apk", FS.File None);
   ("Android",
    FS.Dir [("obb",
             FS.Dir [("com.example.app",
                      FS.Dir [("data.obb", FS.File None)])])])].

Definition sample_root : FS.node :=
  FS.Dir
    [("tmp", FS.Dir [("sageadb_ab12", FS.Dir sample_archive)]);
     ("home",
      FS.Dir [("user",
               FS.Dir [("game.xapk", FS.File (Some sample_archive));
                       ("broken.apkm", FS.File None);
                       ("notes.txt", FS.File None);
                       ("extracted", FS.Dir sample_archive)])])].

(** A directory whose package names differ in the case of their
    letters, and one with a second name that holds [base]. *)
Definition mixed_case_root : FS.node :=
  FS.Dir
    [("d",
      FS.Dir [("xbase.apk", FS.File None); ("B.apk", FS.File None);
              ("BASE.apk", FS.File None); ("a.apk", FS.File None)])].

Definition decoy_root : FS.node :=
  FS.Dir
    [("e",
      FS.Dir [("split1.apk", FS.File None); ("base.apk", FS.File None);
              ("abase.apk", FS.File None)])].

(** Two asset directories of the same package. *)
Definition twice_root : FS.node :=
  FS.Dir
    [("x",
      FS.Dir
        [("a", FS.Dir [("Android",
            FS.Dir [("obb", FS.Dir [("com.x", FS.Dir [("main.obb", FS.File None)])])])]);
         ("b", FS.Dir [("Android",
            FS.Dir [("obb", FS.Dir [("com.x", FS.Dir [("patch.obb", FS.File None)])])])])])].

Definition sample_state (input : string) : state :=
  {| adb_path := "/opt/sageadb/adb.exe";
     base_path := "/opt/sageadb";
     root := sample_root;
     cwd := "/home/user";
     install_apk_input := input;
     log_output := [];
     logcat_output := [];
     debug_txt := "";
     printed := [];
     dialogs := [];
     subprocess_calls := [];
     logcat_thread := None;
     logcat_worker := None;
     start_logcat_btn := true;
     stop_logcat_btn := false;
     os_calls := [];
     tick := 0 |}.

(** The window while logcat is running. *)
Definition streaming_state : state :=
  with_logcat (Some tt)
    (Some {| worker_adb_path := "/opt/sageadb/adb.exe"; _is_running := true;
             process := Some 4242 |})
    false true [] (sample_state "").

Definition sample_execution : LogcatWorker.execution :=
  {| LogcatWorker.popen := Return 4242;
     LogcatWorker.lines :=
       [("--------- beginning of main" ++ nl, true);
        ("I/ActivityManager: start" ++ nl, true);
        ("D/dropped" ++ nl, false)];
     LogcatWorker.stream_end := None;
     LogcatWorker.poll := Return None;
     LogcatWorker.wait_raises := false |}.


(** ** The other handlers of the window *)

(** [s.replace(old, new)] for a non-empty [old]: one pass from the
    left, the text written in place of an occurrence is not searched
    again.  [skip] counts the characters of the occurrence still to be
    passed over. *)
Fixpoint replace_from (old new : string) (skip : nat) (s : string) : string :=
  match s with
  | EmptyString => EmptyString
  | String c r =>
      match skip with
      | S k => replace_from old new k r
      | O =>
          if String.prefix old s
          then new ++ replace_from old new (String.length old - 1) r
          else String c (replace_from old new 0 r)
      end
  end.

Definition replace (old new s : string) : string := replace_from old new 0 s.

(** [[line.replace("package:", "").strip() for line in out.splitlines()]]. *)
Definition package_names (out : string) : list string :=
  map (fun line => PyStr.strip (replace "package:" "" line))
      (PyStr.splitlines out).

(** A [QListWidgetItem]: its text, whether its foreground was set to
    red, whether it is hidden. *)
Record item : Type := {
  item_text : string;
  item_red : bool;
  item_hidden : bool
}.

(** The window: the state above and the widgets of the Connect,
    Install and Apps tabs that the handlers below read or fill. *)
Record window : Type := {
  core : state;
  wifi_ip_input : string;
  obb_folder_input : string;
  app_search_input : string;
  apps_list : list item
}.

Definition with_core (s : state) (x : window) : window :=
  {| core := s; wifi_ip_input := wifi_ip_input x;
     obb_folder_input := obb_folder_input x;
     app_search_input := app_search_input x; apps_list := apps_list x |}.

Definition with_apps_list (l : list item) (x : window) : window :=
  {| core := core x; wifi_ip_input := wifi_ip_input x;
     obb_folder_input := obb_folder_input x;
     app_search_input := app_search_input x; apps_list := l |}.

Definition W (A : Type) : Type := window -> outcome A * window.

(** A method that only works on the state above. *)
Definition lift {A} (c : M A) : W A :=
  fun x => let (r, s') := c (core x) in (r, with_core s' x).

Definition wbind {A B} (c : W A) (k : A -> W B) : W B :=
  fun x =>
    match c x with
    | (Return a, x') => k a x'
    | (Raise e, x') => (Raise e, x')
    end.

Definition wret {A} (a : A) : W A := fun x => (Return a, x).

Definition new_item (text : string) : item :=
  {| item_text := text; item_red := false; item_hidden := false |}.

Section Handlers.
Import PyStr.
Local Open Scope py_scope.

Variable w : world.

Definition adb_connect_usb : M unit :=
  adb <- get adb_path ;;
  run_adb_command w [adb; "devices"] false ;;
  ret tt.

Definition adb_connect_wifi : W unit :=
  fun x =>
    let ip := strip (wifi_ip_input x) in
    lift (if truthy ip
          then adb <- get adb_path ;;
               run_adb_command w [adb; "connect"; ip] false ;;
               ret tt
          else _log w "" "IP address cannot be empty.") x.

(** [os.path.isdir]. *)
Definition isdir (s : state) (path : string) : bool :=
  match FS.resolve (root s) (cwd s) path with
  | Some n => FS.is_dir n
  | None => false
  end.

Definition push_obb_folder : W unit :=
  fun x =>
    let source_path := strip (obb_folder_input x) in
    lift (if negb (truthy source_path)
          then _log w "" "No source folder specified."
          else
            dir <- get (fun s => isdir s source_path) ;;
            if negb dir
            then _log w "" ("Error: The specified path is not a valid folder: "
                            ++ source_path)
            else
              adb <- get adb_path ;;
              run_adb_command w [adb; "push"; source_path; "/sdcard/Android/obb/"]
                false ;;
              ret tt) x.

Definition reboot_device (mode : string) : M unit :=
  adb <- get adb_path ;;
  let cmd := ([adb; "reboot"] ++ (if truthy mode then [mode] else []))%list in
  run_adb_command w cmd false ;;
  ret tt.

(** [filter_app_list]: every item is hidden or shown anew. *)
Definition filter_app_list : W unit :=
  fun x =>
    let search_text := lower (app_search_input x) in
    (Return tt,
     with_apps_list
       (map (fun it =>
               {| item_text := item_text it; item_red := item_red it;
                  item_hidden := negb (contains search_text (lower (item_text it))) |})
            (apps_list x))
       x).

(** Python truth value of what [run_adb_command] returns. *)
Definition got (r : option string) : bool :=
  match r with Some t => truthy t | None => false end.

Definition text_of (r : option string) : string :=
  match r with Some t => t | None => EmptyString end.

(** [refresh_app_list]; [QApplication.processEvents()] finds no event
    pending. *)
Definition refresh_app_list : W unit :=
  wbind (fun x => (Return tt, with_apps_list [new_item "Loading..."] x)) (fun _ =>
  wbind (lift (adb <- get adb_path ;;
               run_adb_command w [adb; "shell"; "pm"; "list"; "packages"] true))
    (fun all_apps =>
  wbind (lift (adb <- get adb_path ;;
               run_adb_command w [adb; "shell"; "pm"; "list"; "packages"; "-d"] true))
    (fun disabled_apps =>
  let disabled_set :=
    if got disabled_apps then package_names (text_of disabled_apps) else [] in
  wbind (fun x =>
           (Return tt,
            with_apps_list
              (if got all_apps
               then map (fun pkg =>
                           {| item_text := pkg;
                              item_red := existsb (String.eqb pkg) disabled_set;
                              item_hidden := false |})
                        (sort_by (fun k => k) String.leb
                                 (package_names (text_of all_apps)))
               else [new_item "Could not retrieve apps."])
              x))
    (fun _ => filter_app_list)))).

(** [closeEvent]: [event.accept()] changes nothing here. *)
Definition closeEvent : M unit := stop_logcat.

End Handlers.

(** *** Notions for the statements about these operations *)

(** [l] only had entries added at its end. *)
Definition extends {A} (l l' : list A) : Prop := exists more, l' = (l ++ more)%list.

(** [grows s s']: everything that is a record of what happened (the
    two logs, [debug.txt], what was printed, the dialogs, the processes
    launched) only had entries added, time went on, and the
    configuration, the file system, the path field and the logcat
    fields are the same. *)
Definition grows (s s' : state) : Prop :=
  extends (log_output s) (log_output s')
  /\ (exists more, debug_txt s' = debug_txt s ++ more)
  /\ extends (printed s) (printed s')
  /\ extends (dialogs s) (dialogs s')
  /\ extends (subprocess_calls s) (subprocess_calls s')
  /\ tick s <= tick s'
  /\ root s' = root s
  /\ cwd s' = cwd s
  /\ adb_path s' = adb_path s
  /\ base_path s' = base_path s
  /\ install_apk_input s' = install_apk_input s
  /\ logcat_output s' = logcat_output s
  /\ logcat_thread s' = logcat_thread s
  /\ logcat_worker s' = logcat_worker s
  /\ start_logcat_btn s' = start_logcat_btn s
  /\ stop_logcat_btn s' = stop_logcat_btn s
  /\ os_calls s' = os_calls s.

(** A computation that always returns, having only added to the
    records; and one that only adds to the records, raise or not. *)
Definition returns_growing {A} (c : M A) : Prop :=
  forall s, exists a s', c s = (Return a, s') /\ grows s s'.

Definition keeps_growing {A} (c : M A) : Prop :=
  forall s, grows s (snd (c s)).

(** The same, the file system left aside. *)
Definition records_grow (s s' : state) : Prop :=
  extends (log_output s) (log_output s')
  /\ (exists more, debug_txt s' = debug_txt s ++ more)
  /\ extends (printed s) (printed s')
  /\ extends (dialogs s) (dialogs s')
  /\ extends (subprocess_calls s) (subprocess_calls s')
  /\ tick s <= tick s'
  /\ cwd s' = cwd s
  /\ adb_path s' = adb_path s
  /\ base_path s' = base_path s
  /\ install_apk_input s' = install_apk_input s
  /\ logcat_output s' = logcat_output s
  /\ logcat_thread s' = logcat_thread s
  /\ logcat_worker s' = logcat_worker s
  /\ start_logcat_btn s' = start_logcat_btn s
  /\ stop_logcat_btn s' = stop_logcat_btn s
  /\ os_calls s' = os_calls s.

(** What [run_adb_command(..., return_output=True)] hands back, read
    as text: the captured standard output, nothing when the command
    could not be run. *)
Definition captured (r : outcome completed) : string :=
  match r with Return c => stdout c | Raise _ => EmptyString end.

(** The two commands [_push_obb_dirs] issues for one package. *)
Definition push_commands (adb : string) (entry : string * string)
  : list (list string) :=
  let (pkg, local_dir) := entry in
  [[adb; "shell"; "mkdir"; "-p"; "/sdcard/Android/obb/" ++ pkg];
   [adb; "push"; local_dir; "/sdcard/Android/obb/" ++ pkg]].

(** [debug.txt] is empty or ends with a newline. *)
Fixpoint ends_with_newline (t : string) : bool :=
  match t with
  | EmptyString => true
  | String c EmptyString => Ascii.eqb c "010"%char
  | String _ r => ends_with_newline r
  end.

Definition sample_window (search : string) : window :=
  {| core := sample_state "";
     wifi_ip_input := "  ";
     obb_folder_input := "/home/user/notes.txt";
     app_search_input := search;
     apps_list := [] |}.

(** A device that lists three packages, one of them disabled. *)
Definition device_world : world :=
  {| now := fun _ => "12:00:00";
     append_ok := fun _ => true;
     append_error := fun _ => "";
     subprocess_run := fun _ args =>
       Return {| stdout :=
                   if existsb (String.eqb "-d") args
                   then "package:com.b" ++ nl
                   else "package:org.z" ++ nl ++ "package:com.b" ++ nl
                        ++ "package:com.a" ++ nl;
                 stderr := "" |};
     gettempdir := "/tmp";
     mkdtemp_suffix := fun _ => "ab12cd34";
     rmtree_leaves := fun _ => None |}.

(** ** Strings *)

Lemma ascii_compare_refl c : Ascii.compare c c = Eq.
Proof. unfold Ascii.compare. apply N.compare_refl. Qed.

Lemma string_compare_refl s : String.compare s s = Eq.
Proof.
  induction s as [|c s IH]; simpl; [reflexivity|].
  now rewrite ascii_compare_refl.
Qed.

Lemma string_compare_trans_le s1 :
  forall s2 s3,
    String.compare s1 s2 <> Gt -> String.compare s2 s3 <> Gt ->
    String.compare s1 s3 <> Gt.
Proof.
  induction s1 as [|c1 s1 IH]; intros [|c2 s2] [|c3 s3]; simpl;
    try congruence.
  unfold Ascii.compare.
  destruct (N.compare_spec (N_of_ascii c1) (N_of_ascii c2)) as [E12|L12|G12];
    destruct (N.compare_spec (N_of_ascii c2) (N_of_ascii c3)) as [E23|L23|G23];
    try congruence; intros H12 H23.
  - rewrite E12, E23, N.compare_refl. now apply (IH s2).
  - rewrite E12. now apply N.compare_lt_iff in L23; rewrite L23.
  - rewrite <- E23. now apply N.compare_lt_iff in L12; rewrite L12.
  - assert (L : (N_of_ascii c1 < N_of_ascii c3)%N) by lia.
    apply N.compare_lt_iff in L. now rewrite L.
Qed.

Lemma string_leb_trans s1 s2 s3 :
  String.leb s1 s2 = true -> String.leb s2 s3 = true -> String.leb s1 s3 = true.
Proof.
  unfold String.leb. intros H12 H23.
  pose proof (string_compare_trans_le s1 s2 s3) as T.
  destruct (String.compare s1 s2); destruct (String.compare s2 s3);
    destruct (String.compare s1 s3); try reflexivity; try discriminate;
    exfalso; apply T; congruence.
Qed.

Lemma string_leb_refl s : String.leb s s = true.
Proof. unfold String.leb. now rewrite string_compare_refl. Qed.

Lemma key_leb_trans a b c :
  key_leb a b = true -> key_leb b c = true -> key_leb a c = true.
Proof.
  unfold key_leb. intros H1 H2.
  apply orb_true_iff in H1. apply orb_true_iff in H2. apply orb_true_iff.
  destruct H1 as [H1|H1], H2 as [H2|H2];
    repeat match goal with
           | H : (_ && _) = true |- _ => apply andb_true_iff in H; destruct H
           | H : (_ <? _)%nat = true |- _ => apply Nat.ltb_lt in H
           | H : (_ =? _)%nat = true |- _ => apply Nat.eqb_eq in H
           end.
  - left. apply Nat.ltb_lt. lia.
  - left. apply Nat.ltb_lt. lia.
  - left. apply Nat.ltb_lt. lia.
  - right. apply andb_true_iff. split.
    + apply Nat.eqb_eq. lia.
    + eapply string_leb_trans; eassumption.
Qed.

Lemma key_leb_total a b : key_leb a b = true \/ key_leb b a = true.
Proof.
  unfold key_leb.
  destruct (Nat.lt_trichotomy (fst a) (fst b)) as [L|[E|G]].
  - left. apply orb_true_iff. left. now apply Nat.ltb_lt.
  - destruct (String.leb_total (snd a) (snd b)) as [H|H]; [left|right];
      apply orb_true_iff; right; apply andb_true_iff; split;
      try assumption; apply Nat.eqb_eq; lia.
  - right. apply orb_true_iff. left. now apply Nat.ltb_lt.
Qed.

(** ** Sorting *)

Section SortFacts.
Context {A K : Type} (key : A -> K) (leb : K -> K -> bool).
Hypothesis leb_trans :
  forall a b c, leb a b = true -> leb b c = true -> leb a c = true.
Hypothesis leb_total : forall a b, leb a b = true \/ leb b a = true.

Lemma insert_by_perm x l : Permutation (x :: l) (insert_by key leb x l).
Proof.
  induction l as [|y l IH]; simpl; [apply Permutation_refl|].
  destruct (leb (key x) (key y)); [apply Permutation_refl|].
  eapply perm_trans; [apply perm_swap|]. now apply perm_skip.
Qed.

Lemma sort_by_perm l : Permutation l (sort_by key leb l).
Proof.
  induction l as [|x l IH]; simpl; [apply perm_nil|].
  eapply perm_trans; [apply perm_skip, IH|]. apply insert_by_perm.
Qed.

Lemma insert_by_sorted x l :
  StronglySorted (fun a b => leb (key a) (key b) = true) l ->
  StronglySorted (fun a b => leb (key a) (key b) = true)
                 (insert_by key leb x l).
Proof.
  induction 1 as [|y l Hs IH Hy]; simpl.
  - constructor; constructor.
  - destruct (leb (key x) (key y)) eqn:E.
    + constructor; [now constructor|].
      constructor; [exact E|].
      rewrite Forall_forall in *. intros z Hz.
      eapply leb_trans; [exact E|]. now apply Hy.
    + constructor; [exact IH|].
      rewrite Forall_forall in *. intros z Hz.
      assert (Hin : In z (x :: l)).
      { eapply Permutation_in; [apply Permutation_sym, insert_by_perm|exact Hz]. }
      destruct Hin as [<-|Hin]; [|now apply Hy].
      destruct (leb_total (key x) (key y)) as [H|H]; [congruence|exact H].
Qed.

Lemma sort_by_sorted l :
  StronglySorted (fun a b => leb (key a) (key b) = true) (sort_by key leb l).
Proof.
  induction l as [|x l IH]; simpl; [constructor|].
  now apply insert_by_sorted.
Qed.

Lemma sorted_nth l :
  StronglySorted (fun a b => leb (key a) (key b) = true) l ->
  forall i j x y, i < j -> nth_error l i = Some x -> nth_error l j = Some y ->
                  leb (key x) (key y) = true.
Proof.
  induction 1 as [|z l Hs IH Hz]; intros i j x y Hij Hi Hj.
  - destruct i; discriminate.
  - destruct j as [|j]; [lia|]. simpl in Hj.
    destruct i as [|i]; simpl in Hi.
    + injection Hi as <-. rewrite Forall_forall in Hz.
      apply Hz. eapply nth_error_In; eassumption.
    + apply (IH i j); [lia|assumption|assumption].
Qed.
End SortFacts.

(** ** The walk *)

Lemma node_induction (P : FS.node -> Prop) :
  (forall a, P (FS.File a)) ->
  (forall es, Forall (fun e => P (snd e)) es -> P (FS.Dir es)) ->
  forall n, P n.
Proof.
  intros HF HD.
  fix IH 1. intros [a|es]; [apply HF|]. apply HD.
  induction es as [|[k n] es IHes]; constructor; [apply IH|exact IHes].
Qed.

Lemma walk_node_dir top es :
  FS.walk_node top (FS.Dir es)
  = (top, FS.dirnames es, FS.filenames es)
    :: flat_map (fun e => FS.walk_node (PosixPath.join top [fst e]) (snd e)) es.
Proof.
  simpl. f_equal.
  induction es as [|[k n] es IH]; simpl; [reflexivity|]. now rewrite IH.
Qed.

Lemma in_filenames name es :
  In name (FS.filenames es) <-> exists a, In (name, FS.File a) es.
Proof.
  unfold FS.filenames. rewrite in_map_iff. split.
  - intros [[k n] [<- H]]. apply filter_In in H. destruct H as [H Hd].
    destruct n as [a|]; [|discriminate]. now exists a.
  - intros [a H]. exists (name, FS.File a). split; [reflexivity|].
    apply filter_In. now split.
Qed.

(** The paths the two nested loops of [_collect_apk_files] append. *)
Lemma walk_collects n :
  forall top p,
    In p (flat_map
            (fun e : FS.walk_entry =>
               let '(r, _, files) := e in
               map (fun fname => PosixPath.join r [fname]) (filter is_apk files))
            (FS.walk_node top n))
    <-> exists name, contains_file top n p name /\ is_apk name = true.
Proof.
  induction n as [a|es IH] using node_induction; intros top p.
  - simpl. split; [tauto|]. intros [name [H _]]. inversion H.
  - rewrite walk_node_dir. simpl. rewrite in_app_iff, in_map_iff. split.
    + intros [[name [<- H]]|H].
      * apply filter_In in H. destruct H as [H Hapk].
        apply in_filenames in H. destruct H as [a H].
        exists name. split; [|exact Hapk]. now apply cf_here with a.
      * apply in_flat_map in H. destruct H as [e [He H]].
        apply in_flat_map in He. destruct He as [[d child] [Hd He]].
        rewrite Forall_forall in IH.
        assert (Hp : In p (flat_map
                     (fun e : FS.walk_entry =>
                        let '(r, _, files) := e in
                        map (fun fname => PosixPath.join r [fname])
                            (filter is_apk files))
                     (FS.walk_node (PosixPath.join top [d]) child))).
        { apply in_flat_map. now exists e. }
        apply (IH (d, child) Hd) in Hp. destruct Hp as [name [Hc Hapk]].
        exists name. split; [|exact Hapk]. now apply cf_below with d child.
    + intros [name [Hc Hapk]].
      inversion Hc as [t0 es0 n0 a Hin | t0 es0 d child p0 n0 Hin Hsub]; subst.
      * left. exists name. split; [reflexivity|].
        apply filter_In. split; [|exact Hapk].
        apply in_filenames. now exists a.
      * right. rewrite Forall_forall in IH.
        assert (Hp : exists name0,
                   contains_file (PosixPath.join top [d]) child p name0
                   /\ is_apk name0 = true) by now exists name.
        apply (IH (d, child) Hin) in Hp.
        apply in_flat_map in Hp. destruct Hp as [e [He Hp]].
        apply in_flat_map. exists e. split; [|exact Hp].
        apply in_flat_map. now exists (d, child).
Qed.

Lemma sort_key_has_base p :
  sort_key p
  = ((if has_base p then 0 else 1), PyStr.lower (PosixPath.basename p)).
Proof.
  unfold sort_key, has_base.
  destruct (PyStr.contains "base" (PyStr.lower (PosixPath.basename p))) eqn:E;
    [reflexivity|].
  destruct (String.eqb_spec (PyStr.lower (PosixPath.basename p)) "base.apk")
    as [H|H]; [|reflexivity].
  rewrite H in E. discriminate.
Qed.

(** C3, as the program has it.  [_collect_apk_files] returns exactly
    the files of the tree under [root_dir] whose name ends, whatever
    the case, in [.apk]: it is a rearrangement of the paths met by the
    walk.  In the returned list a file whose lower-cased basename
    contains [base] never comes after one whose lower-cased basename
    does not, and within each of the two groups the files are in the
    order of their lower-cased basenames.  In particular every file
    named [base.apk] comes before every file named [split1.apk]. *)
Theorem collect_apk_files_base_first (root : FS.node) (cwd root_dir : string) :
  let res := _collect_apk_files root cwd root_dir in
  Permutation (apk_paths root cwd root_dir) res
  /\ (forall p,
        In p res <->
        exists n name,
          FS.resolve root cwd root_dir = Some n
          /\ contains_file root_dir n p name
          /\ PyStr.endswith (PyStr.lower name) ".apk" = true)
  /\ (forall i j p q,
        i < j -> nth_error res i = Some p -> nth_error res j = Some q ->
        (has_base q = true -> has_base p = true)
        /\ (has_base p = has_base q ->
            String.leb (PyStr.lower (PosixPath.basename p))
                       (PyStr.lower (PosixPath.basename q)) = true))
  /\ (forall p q,
        PosixPath.basename p = "base.apk" ->
        PosixPath.basename q = "split1.apk" ->
        precedes res p q).
Proof.
  intros res.
  assert (Hperm : Permutation (apk_paths root cwd root_dir) res)
    by apply sort_by_perm.
  assert (Hsorted : forall i j p q,
             i < j -> nth_error res i = Some p -> nth_error res j = Some q ->
             key_leb (sort_key p) (sort_key q) = true).
  { intros i j p q. apply sorted_nth.
    apply sort_by_sorted; [exact key_leb_trans|exact key_leb_total]. }
  split; [exact Hperm|]. split; [|split].
  - intros p. split.
    + intros Hp. apply (Permutation_in _ (Permutation_sym Hperm)) in Hp.
      unfold apk_paths, FS.walk in Hp.
      destruct (FS.resolve root cwd root_dir) as [n|]; [|contradiction].
      apply walk_collects in Hp. destruct Hp as [name [Hc Hapk]].
      now exists n, name.
    + intros [n [name [Hr [Hc Hapk]]]].
      apply (Permutation_in _ Hperm).
      unfold apk_paths, FS.walk. rewrite Hr.
      apply walk_collects. now exists name.
  - intros i j p q Hij Hi Hj.
    pose proof (Hsorted i j p q Hij Hi Hj) as H.
    rewrite !sort_key_has_base in H. unfold key_leb in H. simpl in H.
    destruct (has_base p), (has_base q); simpl in H; split;
      try discriminate; try reflexivity; intros _; exact H.
  - intros p q Hp Hq i j Hi Hj.
    assert (Kp : sort_key p = (0, "base.apk"))
      by (unfold sort_key; now rewrite Hp).
    assert (Kq : sort_key q = (1, "split1.apk"))
      by (unfold sort_key; now rewrite Hq).
    destruct (Nat.lt_trichotomy i j) as [L|[E|G]]; [exact L| |].
    + subst j. rewrite Hi in Hj. injection Hj as <-.
      rewrite Hp in Hq. discriminate.
    + pose proof (Hsorted j i q p G Hj Hi) as H.
      rewrite Kp, Kq in H. discriminate.
Qed.

Lemma collect_apk_files_base_first_witness :
  apk_paths sample_root "/home/user" "extracted"
  = ["extracted/split1.apk"; "extracted/base.apk"]
  /\ _collect_apk_files sample_root "/home/user" "extracted"
     = ["extracted/base.apk"; "extracted/split1.apk"]
  /\ precedes (_collect_apk_files sample_root "/home/user" "extracted")
       "extracted/base.apk" "extracted/split1.apk".
Proof.
  split; [reflexivity|]. split; [reflexivity|].
  apply (proj2 (proj2 (proj2
           (collect_apk_files_base_first sample_root "/home/user" "extracted"))));
    reflexivity.
Defined.

(** C3 as stated fails.  The token is looked for in the lower-cased
    basename: [BASE.apk], which does not contain [base], comes before
    [xbase.apk], which does.  Ties are broken by the lower-cased
    basename: [a.apk] comes before [B.apk], though [B.apk] is the
    smaller basename.  And [base.apk] comes before [split1.apk] but not
    first when another name holds [base]. *)
Lemma collect_apk_files_not_by_plain_basename :
  _collect_apk_files mixed_case_root "/" "d"
  = ["d/BASE.apk"; "d/xbase.apk"; "d/a.apk"; "d/B.apk"]
  /\ PyStr.contains "base" (PosixPath.basename "d/xbase.apk") = true
  /\ PyStr.contains "base" (PosixPath.basename "d/BASE.apk") = false
  /\ ~ precedes (_collect_apk_files mixed_case_root "/" "d")
        "d/xbase.apk" "d/BASE.apk"
  /\ PyStr.contains "base" (PosixPath.basename "d/a.apk") = false
  /\ PyStr.contains "base" (PosixPath.basename "d/B.apk") = false
  /\ String.ltb (PosixPath.basename "d/B.apk") (PosixPath.basename "d/a.apk")
     = true
  /\ ~ precedes (_collect_apk_files mixed_case_root "/" "d") "d/B.apk" "d/a.apk"
  /\ _collect_apk_files decoy_root "/" "e"
     = ["e/abase.apk"; "e/base.apk"; "e/split1.apk"]
  /\ hd_error (_collect_apk_files decoy_root "/" "e") <> Some "e/base.apk".
Proof.
  assert (E : _collect_apk_files mixed_case_root "/" "d"
              = ["d/BASE.apk"; "d/xbase.apk"; "d/a.apk"; "d/B.apk"])
    by (vm_compute; reflexivity).
  assert (F : _collect_apk_files decoy_root "/" "e"
              = ["e/abase.apk"; "e/base.apk"; "e/split1.apk"])
    by (vm_compute; reflexivity).
  rewrite E, F.
  split; [reflexivity|]. split; [reflexivity|]. split; [reflexivity|].
  split. { intros H. specialize (H 1 0 eq_refl eq_refl). lia. }
  split; [reflexivity|]. split; [reflexivity|]. split; [reflexivity|].
  split. { intros H. specialize (H 3 2 eq_refl eq_refl). lia. }
  split; [reflexivity|]. discriminate.
Qed.

(** ** The two logging functions *)

Lemma append_assoc (a b c : string) : (a ++ b) ++ c = a ++ b ++ c.
Proof. induction a as [|x a IH]; simpl; [reflexivity|]. now rewrite IH. Qed.

Lemma append_nil_r (a : string) : a ++ "" = a.
Proof. induction a as [|x a IH]; simpl; [reflexivity|]. now rewrite IH. Qed.


Lemma view_of_log w command output s :
  append_ok w (tick s) = true ->
  view_of (snd (_log w command output s))
  = ((log_output s
      ++ (if PyStr.truthy command
          then [("[" ++ now w (tick s) ++ "] $ " ++ command)%string] else [])
      ++ (if PyStr.truthy output && PyStr.truthy (PyStr.strip output)
          then [("[" ++ now w (tick s) ++ "] > " ++ PyStr.strip output)%string]
          else []))%list,
     logcat_output s,
     debug_txt s
     ++ (if PyStr.truthy command
         then ("[" ++ now w (tick s) ++ "] $ " ++ command) ++ nl else "")
     ++ (if PyStr.truthy output && PyStr.truthy (PyStr.strip output)
         then String.concat ""
                (map (fun line => "[" ++ now w (tick s) ++ "] > " ++ line ++ nl)
                     (PyStr.splitlines (PyStr.strip output)))
         else "")).
Proof.
  intros Hok. unfold _log, view_of, append_debug. simpl. rewrite Hok. reflexivity.
Qed.



Lemma run_op_tick w o s : tick (snd (run_op w o s)) = S (tick s).
Proof.
  destruct o; simpl; unfold _log, update_logcat_and_debug_file, append_debug;
    simpl; destruct (append_ok w (tick s)); reflexivity.
Qed.






(** ** The logcat worker *)

Lemma read_loop_relays ls e :
  fst (LogcatWorker.read_loop ls e)
  = map PyStr.rstrip (filter PyStr.truthy (seen_before_stop ls)).
Proof.
  induction ls as [|[line running] ls IH]; simpl; [reflexivity|].
  destruct running; simpl; [|reflexivity].
  destruct (LogcatWorker.read_loop ls e) as [out r]. simpl in IH.
  destruct (PyStr.truthy line); simpl; now rewrite IH.
Qed.

Lemma on_exception_one e :
  exists m, LogcatWorker.on_exception e = [m]
            /\ PyStr.startswith m "CRITICAL ERROR" = true.
Proof.
  unfold LogcatWorker.on_exception.
  destruct (kind e); eexists; split; reflexivity.
Qed.

Lemma critical_is_not_stopped m :
  PyStr.startswith m "CRITICAL ERROR" = true -> m <> LogcatWorker.stopped.
Proof. intros H ->. discriminate. Qed.

(** C4.  Whatever an execution of [LogcatWorker.run] meets (the child
    cannot be started, its output ends or fails, a stop request is
    seen), the notifications are the relayed output lines, at most one
    [CRITICAL ERROR] message, and then [Logcat stopped.] as the last
    one; the worker emits that text once, so it occurs once unless the
    device's own output held the same line. *)
Theorem run_emits_one_stopped (k : worker) (x : LogcatWorker.execution) :
  let emitted := snd (fst (LogcatWorker.run k x)) in
  let relayed :=
    match LogcatWorker.popen x with
    | Return _ =>
        map PyStr.rstrip
          (filter PyStr.truthy (seen_before_stop (LogcatWorker.lines x)))
    | Raise _ => []
    end in
  exists failure,
    emitted = (relayed ++ failure ++ [LogcatWorker.stopped])%list
    /\ length failure <= 1
    /\ (forall m, In m failure -> PyStr.startswith m "CRITICAL ERROR" = true)
    /\ last emitted "" = LogcatWorker.stopped
    /\ (~ In LogcatWorker.stopped relayed ->
        count_occ string_dec emitted LogcatWorker.stopped = 1).
Proof.
  intros emitted relayed.
  assert (Hshape : exists failure,
             emitted = (relayed ++ failure ++ [LogcatWorker.stopped])%list
             /\ length failure <= 1
             /\ (forall m, In m failure ->
                           PyStr.startswith m "CRITICAL ERROR" = true)).
  { subst emitted relayed. unfold LogcatWorker.run. simpl.
    destruct (LogcatWorker.popen x) as [pid|e].
    - pose proof (read_loop_relays (LogcatWorker.lines x)
                    (LogcatWorker.stream_end x)) as Hr.
      destruct (LogcatWorker.read_loop (LogcatWorker.lines x)
                  (LogcatWorker.stream_end x)) as [out r].
      simpl in Hr. subst out. destruct r as [e|].
      + destruct (on_exception_one e) as [m [Hm Hc]]. rewrite Hm.
        exists [m]. split; [now rewrite <- app_assoc|].
        split; [simpl; lia|]. intros m' [<-|[]]. exact Hc.
      + exists []. split; [now rewrite app_nil_r|].
        split; [simpl; lia|]. intros m' [].
    - destruct (on_exception_one e) as [m [Hm Hc]]. rewrite Hm.
      exists [m]. split; [reflexivity|].
      split; [simpl; lia|]. intros m' [<-|[]]. exact Hc. }
  destruct Hshape as [failure [He [Hl Hc]]].
  exists failure. rewrite He.
  split; [reflexivity|]. split; [exact Hl|]. split; [exact Hc|]. split.
  - rewrite app_assoc. apply last_last.
  - intros Hr. rewrite !count_occ_app.
    rewrite (proj1 (count_occ_not_In string_dec relayed LogcatWorker.stopped) Hr).
    rewrite (proj1 (count_occ_not_In string_dec failure LogcatWorker.stopped)).
    + simpl.
      destruct (string_dec LogcatWorker.stopped LogcatWorker.stopped);
        [reflexivity|congruence].
    + intros Hin.
      now apply (critical_is_not_stopped LogcatWorker.stopped
                   (Hc LogcatWorker.stopped Hin)).
Qed.

Lemma run_emits_one_stopped_witness :
  count_occ string_dec
    (snd (fst (LogcatWorker.run
                 {| worker_adb_path := "adb"; _is_running := false;
                    process := None |}
                 sample_execution)))
    LogcatWorker.stopped = 1.
Proof.
  destruct (run_emits_one_stopped
              {| worker_adb_path := "adb"; _is_running := false;
                 process := None |}
              sample_execution) as [failure [_ [_ [_ [_ H]]]]].
  apply H. vm_compute. intros [H1|[H2|[]]]; discriminate.
Defined.

(** ** The command runner *)

(** C7.  [run_adb_command] returns for every argument vector and every
    outcome of the child process.  When the process cannot be launched
    or run, the exception ends in one modal error dialog and in a log
    entry that holds the joined command line, and the result is [None];
    otherwise the result is the captured standard output when
    [return_output] is set and [None] when it is not. *)
Theorem run_adb_command_never_raises
  (w : world) (args : list string) (return_output : bool) (s : state) :
  exists r s',
    run_adb_command w args return_output s = (Return r, s')
    /\ subprocess_calls s' = (subprocess_calls s ++ [args])%list
    /\ match subprocess_run w (tick s) args with
       | Return result =>
           r = (if return_output then Some (stdout result) else None)
           /\ dialogs s' = dialogs s
       | Raise e =>
           r = None
           /\ dialogs s' = (dialogs s ++ [("Error", message e)])%list
           /\ exists rest,
               log_output s'
               = (log_output s
                  ++ ("[" ++ now w (S (tick s)) ++ "] $ "
                      ++ "Error running command: " ++ PyStr.join " " args)%string
                  :: rest)%list
       end.
Proof.
  unfold run_adb_command, try_except, bind, call_subprocess, critical, modify,
    ret, _log.
  destruct (subprocess_run w (tick s) args) as [result|e]; simpl.
  - eexists. eexists. split; [reflexivity|]. simpl.
    unfold append_debug. simpl.
    destruct (append_ok w (S (tick s))); simpl; repeat split.
  - eexists. eexists. split; [reflexivity|]. simpl.
    unfold append_debug. simpl.
    destruct (append_ok w (S (tick s))); simpl; repeat split;
      eexists; reflexivity.
Qed.

(** ** Stopping logcat *)

(** C9.  With no worker and no thread, [stop_logcat] returns without
    touching any process; and calling it twice leaves the state one
    call leaves: no thread, no worker, Start enabled, Stop disabled. *)
Theorem stop_logcat_idempotent (s : state) :
  (logcat_thread s = None -> logcat_worker s = None ->
   fst (stop_logcat s) = Return tt
   /\ os_calls (snd (stop_logcat s)) = os_calls s
   /\ subprocess_calls (snd (stop_logcat s)) = subprocess_calls s)
  /\ fst (stop_logcat (snd (stop_logcat s))) = Return tt
  /\ snd (stop_logcat (snd (stop_logcat s))) = snd (stop_logcat s)
  /\ logcat_thread (snd (stop_logcat s)) = None
  /\ logcat_worker (snd (stop_logcat s)) = None
  /\ start_logcat_btn (snd (stop_logcat s)) = true
  /\ stop_logcat_btn (snd (stop_logcat s)) = false.
Proof.
  split; [|repeat split].
  - intros Ht Hw. unfold stop_logcat, modify. simpl. rewrite Ht, Hw. simpl.
    now rewrite app_nil_r.
  - unfold stop_logcat, modify, with_logcat. simpl. now rewrite app_nil_r.
Qed.

Lemma stop_logcat_idempotent_witness :
  os_calls (snd (stop_logcat (sample_state ""))) = []
  /\ os_calls (snd (stop_logcat (snd (stop_logcat streaming_state))))
     = [Terminate 4242; ThreadQuit; ThreadWait].
Proof.
  split.
  - apply (proj1 (stop_logcat_idempotent (sample_state ""))); reflexivity.
  - rewrite (proj1 (proj2 (proj2 (stop_logcat_idempotent streaming_state)))).
    reflexivity.
Defined.

(** ** [install_app]: the paths that install nothing *)

Lemma lstrip_blank s :
  forallb PyStr.isspace (list_ascii_of_string s) = true -> PyStr.lstrip s = "".
Proof.
  induction s as [|c s IH]; simpl; [reflexivity|].
  intros H. apply andb_true_iff in H. destruct H as [Hc Hs].
  rewrite Hc. now apply IH.
Qed.

Lemma strip_blank s :
  forallb PyStr.isspace (list_ascii_of_string s) = true -> PyStr.strip s = "".
Proof. intros H. unfold PyStr.strip. now rewrite lstrip_blank. Qed.

Lemma rstrip_app_keep a b :
  PyStr.rstrip b = b -> b <> "" -> PyStr.rstrip (a ++ b) = a ++ b.
Proof.
  intros Hb Hne. induction a as [|c a IH]; simpl; [exact Hb|].
  rewrite IH. destruct (a ++ b) eqn:E; [|reflexivity].
  destruct a; simpl in E; [congruence|discriminate].
Qed.

(** One call of [_log] with no command and an output that [strip]
    leaves alone. *)
Lemma log_only_logged w output s :
  PyStr.strip output = output -> output <> "" ->
  _log w "" output s = (Return tt, snd (_log w "" output s))
  /\ only_logged w s output (snd (_log w "" output s)).
Proof.
  intros Hs Hne.
  assert (Ht : PyStr.truthy output = true).
  { unfold PyStr.truthy. now destruct (String.eqb_spec output ""). }
  split; [reflexivity|].
  unfold only_logged, _log, append_debug. simpl. rewrite Hs, Ht. simpl.
  destruct (append_ok w (tick s)) eqn:Hok; simpl; repeat split.
  eexists; reflexivity.
Qed.

(** C10.  With an empty or blank path field [install_app] logs [No APK
    path specified.] once and does nothing else: no process is
    launched, the file system (so any temporary directory) and every
    other part of the state are as before. *)
Theorem install_app_blank_path (w : world) (s : state) :
  forallb PyStr.isspace (list_ascii_of_string (install_apk_input s)) = true ->
  exists s',
    install_app w s = (Return tt, s')
    /\ only_logged w s "No APK path specified." s'
    /\ subprocess_calls s' = subprocess_calls s
    /\ root s' = root s.
Proof.
  intros Hblank.
  exists (snd (_log w "" "No APK path specified." s)).
  destruct (log_only_logged w "No APK path specified." s) as [Hrun Hlog];
    [reflexivity|discriminate|].
  split; [|split; [exact Hlog|split; apply Hlog]].
  unfold install_app, bind, get. rewrite (strip_blank _ Hblank). exact Hrun.
Qed.

Lemma install_app_blank_path_witness :
  exists s',
    install_app quiet_world (sample_state "   ") = (Return tt, s')
    /\ only_logged quiet_world (sample_state "   ") "No APK path specified." s'
    /\ subprocess_calls s' = []
    /\ root s' = sample_root.
Proof. apply (install_app_blank_path quiet_world (sample_state "   ")). reflexivity. Defined.

(** C6.  For a path that is not empty once stripped and whose
    extension is none of [.apk], [.apks], [.apkm], [.xapk],
    [install_app] logs the unsupported-file-type message once and does
    nothing else: no process is launched and the rest of the state is
    as before. *)
Theorem install_app_unsupported (w : world) (s : state) :
  let path := PyStr.strip (install_apk_input s) in
  let ext := PyStr.lower (snd (PosixPath.splitext path)) in
  path <> "" ->
  ext <> ".apk" -> ext <> ".apks" -> ext <> ".apkm" -> ext <> ".xapk" ->
  exists s',
    install_app w s = (Return tt, s')
    /\ only_logged w s
         ("Unsupported file type: " ++ ext
          ++ ". Supported: .apk, .apkm, .xapk, .apks") s'
    /\ subprocess_calls s' = subprocess_calls s
    /\ root s' = root s.
Proof.
  intros path ext Hpath H1 H2 H3 H4.
  set (msg := "Unsupported file type: " ++ ext
              ++ ". Supported: .apk, .apkm, .xapk, .apks").
  exists (snd (_log w "" msg s)).
  destruct (log_only_logged w msg s) as [Hrun Hlog].
  { unfold PyStr.strip. change (PyStr.lstrip msg) with msg.
    unfold msg. rewrite <- append_assoc.
    apply rstrip_app_keep; [reflexivity|discriminate]. }
  { discriminate. }
  split; [|split; [exact Hlog|split; apply Hlog]].
  unfold install_app, bind, get. fold path.
  assert (Ht : PyStr.truthy path = true).
  { unfold PyStr.truthy. now destruct (String.eqb_spec path ""). }
  rewrite Ht. simpl. fold ext.
  destruct (String.eqb_spec ext ".apk"); [contradiction|].
  destruct (String.eqb_spec ext ".apks"); [contradiction|].
  destruct (String.eqb_spec ext ".apkm"); [contradiction|].
  destruct (String.eqb_spec ext ".xapk"); [contradiction|].
  exact Hrun.
Qed.

Lemma install_app_unsupported_witness :
  exists s',
    install_app quiet_world (sample_state "notes.txt") = (Return tt, s')
    /\ only_logged quiet_world (sample_state "notes.txt")
         "Unsupported file type: .txt. Supported: .apk, .apkm, .xapk, .apks" s'
    /\ subprocess_calls s' = []
    /\ root s' = sample_root.
Proof.
  apply (install_app_unsupported quiet_world (sample_state "notes.txt"));
    discriminate.
Defined.

(** ** Bundled assets *)

Lemma length_take n : forall s, String.length (PyStr.take n s) = Nat.min n (String.length s).
Proof.
  induction n as [|n IH]; intros [|c s]; simpl; try reflexivity.
  now rewrite IH.
Qed.

Lemma length_drop n : forall s, String.length (PyStr.drop n s) = String.length s - n.
Proof.
  induction n as [|n IH]; intros [|c s]; simpl; try reflexivity. apply IH.
Qed.

Lemma length_rstrip_char ch s :
  String.length (PyStr.rstrip_char ch s) <= String.length s.
Proof.
  induction s as [|c s IH]; simpl; [lia|].
  destruct (PyStr.rstrip_char ch s) eqn:E; simpl in *.
  - destruct (Ascii.eqb c ch); simpl; lia.
  - lia.
Qed.

(** [os.path.split] with a non-empty tail shortens the path. *)
Lemma split_shortens p head tail :
  PosixPath.split p = (head, tail) -> PyStr.truthy tail = true ->
  String.length head < String.length p.
Proof.
  unfold PosixPath.split. intros H Ht. cbv zeta in H. injection H as Hh Htl.
  set (i := Z.to_nat (PyStr.rfind PosixPath.sep p + 1)) in *.
  assert (Hi : i < String.length p).
  { assert (L : String.length tail = String.length p - i)
      by (rewrite <- Htl; apply length_drop).
    destruct tail; [discriminate|]. simpl in L. lia. }
  assert (Hk : String.length (PyStr.take i p) = i)
    by (rewrite length_take; lia).
  rewrite <- Hh.
  destruct (PyStr.truthy (PyStr.take i p) && negb (PosixPath.all_sep (PyStr.take i p))).
  - pose proof (length_rstrip_char PosixPath.sep (PyStr.take i p)). lia.
  - lia.
Qed.

Lemma parts_loop_total fuel :
  forall rp parts,
    String.length rp < fuel -> parts_loop fuel rp parts <> None.
Proof.
  induction fuel as [|fuel IH]; intros rp parts Hlen; [lia|].
  cbn [parts_loop]. destruct (PosixPath.split rp) as [rp' tail] eqn:E.
  destruct (PyStr.truthy tail) eqn:Ht; [|discriminate].
  apply IH. pose proof (split_shortens _ _ _ E Ht). lia.
Qed.

(** The loop that takes a path apart always reaches its [break]. *)
Lemma path_parts_total r : path_parts r <> None.
Proof.
  unfold path_parts.
  destruct (parts_loop (S (String.length r)) r []) eqn:E; [discriminate|].
  exfalso. revert E. apply parts_loop_total. lia.
Qed.

Lemma dict_get_set_same k v d : dict_get k (dict_set k v d) = Some v.
Proof.
  induction d as [|[k' v'] d IH]; simpl.
  - now rewrite String.eqb_refl.
  - destruct (String.eqb k' k) eqn:E; simpl; rewrite E; [reflexivity|exact IH].
Qed.

Lemma dict_get_set_other k k' v d :
  k <> k' -> dict_get k' (dict_set k v d) = dict_get k' d.
Proof.
  intros Hne. induction d as [|[k0 v0] d IH]; simpl.
  - destruct (String.eqb_spec k k'); [contradiction|reflexivity].
  - destruct (String.eqb_spec k0 k) as [->|Hk]; simpl.
    + destruct (String.eqb_spec k k'); [contradiction|reflexivity].
    + destruct (String.eqb k0 k'); [reflexivity|exact IH].
Qed.

Lemma later_visits_keep root cwd k v after :
  (forall e v', In e after -> obb_candidate root cwd e <> Some (k, v')) ->
  forall d, dict_get k d = Some v ->
            dict_get k (fold_left (obb_visit root cwd) after d) = Some v.
Proof.
  induction after as [|e after IH]; intros Hno d Hd; simpl; [exact Hd|].
  apply IH.
  - intros e' v' Hin. apply Hno. now right.
  - unfold obb_visit.
    destruct (obb_candidate root cwd e) as [[k' v']|] eqn:E; [|exact Hd].
    rewrite dict_get_set_other; [exact Hd|].
    intros ->. apply (Hno e v'); [now left|exact E].
Qed.

(** C8.  When several directories met by the walk give the same
    package identifier, [_find_obb_package_dirs] maps the identifier to
    the directory given by the last of them: each assignment replaces
    what an earlier directory left under that key. *)
Theorem last_walked_wins
  (root : FS.node) (cwd root_dir : string)
  (before after : list FS.walk_entry) (e : FS.walk_entry) (k v : string) :
  FS.walk root cwd root_dir = (before ++ e :: after)%list ->
  obb_candidate root cwd e = Some (k, v) ->
  (forall e' v', In e' after -> obb_candidate root cwd e' <> Some (k, v')) ->
  dict_get k (_find_obb_package_dirs root cwd root_dir) = Some v.
Proof.
  intros Hwalk He Hafter. unfold _find_obb_package_dirs.
  rewrite Hwalk, fold_left_app. simpl.
  apply later_visits_keep; [exact Hafter|].
  unfold obb_visit at 1. rewrite He. apply dict_get_set_same.
Qed.

Lemma last_walked_wins_witness :
  obb_candidate twice_root "/" ("x/a/Android/obb/com.x", [], ["main.obb"])
  = Some ("com.x", "x/a/Android/obb/com.x")
  /\ dict_get "com.x" (_find_obb_package_dirs twice_root "/" "x")
     = Some "x/b/Android/obb/com.x".
Proof.
  split; [reflexivity|].
  apply (last_walked_wins twice_root "/" "x"
           [("x", ["a"; "b"], []);
            ("x/a", ["Android"], []);
            ("x/a/Android", ["obb"], []);
            ("x/a/Android/obb", ["com.x"], []);
            ("x/a/Android/obb/com.x", [], ["main.obb"]);
            ("x/b", ["Android"], []);
            ("x/b/Android", ["obb"], []);
            ("x/b/Android/obb", ["com.x"], [])]
           []
           ("x/b/Android/obb/com.x", [], ["patch.obb"])).
  - reflexivity.
  - reflexivity.
  - intros e' v' [].
Defined.

(** C5.  The walk is given the extraction directory as [mkdtemp]
    returns it, an absolute path.  [_find_obb_package_dirs] rebuilds
    the package directory with [os.path.join] from the pieces of
    [r.split(os.sep)], the first of which is empty, and so asks
    [os.listdir] for a path relative to the working directory: the
    assets under [Android/obb/com.example.app] are found when the
    working directory is the root, or when the walk starts from a
    relative path, and are missed otherwise. *)
Theorem find_obb_package_dirs_misses_assets :
  FS.listdir sample_root "/home/user"
    "/tmp/sageadb_ab12/Android/obb/com.example.app" = Some ["data.obb"]
  /\ In ("/tmp/sageadb_ab12/Android/obb/com.example.app", [], ["data.obb"])
        (FS.walk sample_root "/home/user" "/tmp/sageadb_ab12")
  /\ _find_obb_package_dirs sample_root "/home/user" "/tmp/sageadb_ab12" = []
  /\ _find_obb_package_dirs sample_root "/" "/tmp/sageadb_ab12"
     = [("com.example.app", "tmp/sageadb_ab12/Android/obb/com.example.app")]
  /\ _find_obb_package_dirs sample_root "/home/user" "extracted"
     = [("com.example.app", "extracted/Android/obb/com.example.app")].
Proof.
  split; [reflexivity|]. split; [vm_compute; tauto|].
  repeat split; reflexivity.
Qed.

(** ** [install_app]: an archive that is no archive *)

Lemma lookup_set_entry name n es :
  FS.lookup name (FS.set_entry name n es) = Some n.
Proof.
  induction es as [|[k m] es IH]; simpl.
  - now rewrite String.eqb_refl.
  - destruct (String.eqb k name) eqn:E; simpl; rewrite E; [reflexivity|exact IH].
Qed.

Lemma plain_step seg es up rest :
  plain seg ->
  FS.resolve_from (FS.Dir es :: up) (seg :: rest)
  = match FS.lookup seg es with
    | Some n => FS.resolve_from (n :: FS.Dir es :: up) rest
    | None => None
    end.
Proof.
  intros [H0 [H1 H2]]. simpl.
  destruct (String.eqb_spec seg ""); [contradiction|].
  destruct (String.eqb_spec seg "."); [contradiction|].
  destruct (String.eqb_spec seg ".."); [contradiction|].
  reflexivity.
Qed.

(** What [put_at] stores is what resolution finds. *)
Lemma put_at_resolve segs :
  forall new n r up,
    Forall plain segs ->
    FS.put_at segs new n = Some r ->
    exists st, FS.resolve_from (r :: up) segs = Some (new :: st).
Proof.
  induction segs as [|seg rest IH]; intros new n r up Hp Hput.
  - simpl in Hput. injection Hput as <-. now exists up.
  - inversion Hp as [|? ? Hseg Hrest]; subst.
    simpl in Hput. destruct n as [a|es]; [discriminate|].
    destruct rest as [|seg' rest'].
    + injection Hput as <-. rewrite (plain_step _ _ _ _ Hseg).
      rewrite lookup_set_entry. simpl. eexists; reflexivity.
    + destruct (FS.lookup seg es) as [child|]; [|discriminate].
      destruct (FS.put_at (seg' :: rest') new child) as [child'|] eqn:E;
        [|discriminate].
      injection Hput as <-. rewrite (plain_step _ _ _ _ Hseg).
      rewrite lookup_set_entry.
      apply (IH new child child' _ Hrest E).
Qed.

(** Empty components ([//], a trailing [/]) do not change where a path
    leads, as long as it leads to a directory. *)
Lemma resolve_skip_empty segs :
  forall es up new st,
    Forall plain (filter PyStr.truthy segs) ->
    FS.resolve_from (FS.Dir es :: up) (filter PyStr.truthy segs)
    = Some (new :: st) ->
    FS.is_dir new = true ->
    FS.resolve_from (FS.Dir es :: up) segs = Some (new :: st).
Proof.
  induction segs as [|seg rest IH]; intros es up new st Hp Hr Hd.
  - exact Hr.
  - cbn [filter] in Hp, Hr. destruct (PyStr.truthy seg) eqn:Ht.
    + inversion Hp as [|? ? Hseg Hrest]; subst.
      rewrite (plain_step _ _ _ _ Hseg) in Hr.
      rewrite (plain_step _ _ _ _ Hseg).
      destruct (FS.lookup seg es) as [n|]; [|discriminate].
      destruct n as [a|es'].
      * destruct (filter PyStr.truthy rest) as [|seg' rest'] eqn:E.
        -- simpl in Hr. injection Hr as <- _. discriminate.
        -- simpl in Hr. discriminate.
      * now apply IH.
    + assert (seg = "") as ->.
      { unfold PyStr.truthy in Ht. apply negb_false_iff in Ht.
        now apply String.eqb_eq. }
      simpl. now apply IH.
Qed.

Lemma mkdtemp_frame w prefix s d s1 :
  mkdtemp w prefix s = (Return d, s1) ->
  tick s1 = S (tick s) /\ cwd s1 = cwd s
  /\ dialogs s1 = dialogs s /\ log_output s1 = log_output s
  /\ FS.put_at (FS.components d) (FS.Dir []) (root s) = Some (root s1).
Proof.
  unfold mkdtemp. intros H.
  destruct (FS.exists_ (root s) (cwd s) _); [discriminate|].
  destruct (FS.put_at _ _ _) eqn:E; [|discriminate].
  injection H as <- <-. repeat split. exact E.
Qed.

Lemma put_at_dir segs new n r :
  FS.put_at segs new n = Some r -> FS.is_dir new = true -> FS.is_dir r = true.
Proof.
  destruct segs as [|seg rest]; simpl.
  - now intros [= <-].
  - destruct n as [a|es]; [discriminate|].
    destruct rest as [|seg' rest']; [now intros [= <-]|].
    destruct (FS.lookup seg es); [|discriminate].
    destruct (FS.put_at (seg' :: rest') new n); [|discriminate].
    now intros [= <-].
Qed.

(** The directory [mkdtemp] returns is there afterwards. *)
Lemma mkdtemp_creates w prefix s d s1 :
  mkdtemp w prefix s = (Return d, s1) ->
  PyStr.startswith d "/" = true ->
  Forall plain (FS.components d) ->
  FS.exists_ (root s1) (cwd s1) d = true.
Proof.
  intros Hmk Habs Hplain.
  destruct (mkdtemp_frame _ _ _ _ _ Hmk) as (_ & _ & _ & _ & Hput).
  pose proof (put_at_dir _ _ _ _ Hput eq_refl) as Hdir.
  destruct (put_at_resolve _ _ _ _ [] Hplain Hput) as [st Hres].
  destruct (root s1) as [a|es]; [discriminate|].
  unfold FS.exists_, FS.resolve. rewrite Habs.
  destruct (String.eqb_spec d ""); [subst d; discriminate|].
  rewrite (resolve_skip_empty _ _ _ _ _ Hplain Hres eq_refl). reflexivity.
Qed.

Lemma resolve_nonempty root cwd path n :
  FS.resolve root cwd path = Some n -> path <> "".
Proof. intros H ->. discriminate. Qed.

(** C1.  When the path names a file that is not a ZIP archive,
    [install_app] reports it by a dialog and a log entry of its own and
    returns; but [_extract_zip_to_temp] has raised after [mkdtemp] and
    before [temp_dir] was assigned, so the [finally] block removes
    nothing: the file system is left as [mkdtemp] made it, the new
    directory included. *)
Theorem bad_archive_leaves_temp_dir
  (w : world) (s s1 : state) (ext d : string) :
  let path := PyStr.strip (install_apk_input s) in
  PyStr.lower (snd (PosixPath.splitext path)) = ext ->
  ext = ".apkm" \/ ext = ".xapk" ->
  mkdtemp w "sageadb_" s = (Return d, s1) ->
  PyStr.startswith d "/" = true ->
  Forall plain (FS.components d) ->
  FS.resolve (root s1) (cwd s1) path = Some (FS.File None) ->
  exists s',
    install_app w s = (Return tt, s')
    /\ dialogs s'
       = (dialogs s
          ++ [("Error",
               ("Invalid " ++ ext ++ " file (not a valid ZIP archive).")%string)])%list
    /\ log_output s'
       = (log_output s
          ++ [("[" ++ now w (tick s1) ++ "] > Failed to read " ++ path
               ++ ": invalid archive.")%string])%list
    /\ root s' = root s1
    /\ FS.exists_ (root s') (cwd s') d = true.
Proof.
  intros path Hext Hkind Hmk Habs Hplain Hres.
  pose proof (resolve_nonempty _ _ _ _ Hres) as Hne.
  pose proof (mkdtemp_creates _ _ _ _ _ Hmk Habs Hplain) as Hthere.
  destruct (mkdtemp_frame _ _ _ _ _ Hmk) as (Htick & Hcwd & Hdlg & Hlog & _).
  assert (Ht : PyStr.truthy path = true).
  { unfold PyStr.truthy. now destruct (String.eqb_spec path ""). }
  set (msg := "Failed to read " ++ path ++ ": invalid archive.").
  assert (Hstrip : PyStr.strip msg = msg).
  { unfold PyStr.strip. change (PyStr.lstrip msg) with msg.
    unfold msg. rewrite <- append_assoc.
    apply rstrip_app_keep; [reflexivity|discriminate]. }
  assert (Hsplit : install_app w s = install_split w ext path s).
  { unfold install_app, bind, get. fold path. rewrite Ht. simpl. rewrite Hext.
    destruct Hkind as [->| ->]; reflexivity. }
  set (s2 := with_dialogs
               (dialogs s1
                ++ [("Error",
                     ("Invalid " ++ ext ++ " file (not a valid ZIP archive).")%string)])%list
               s1).
  destruct (log_only_logged w msg s2 Hstrip) as [Hrun Hlogged];
    [discriminate|].
  exists (snd (_log w "" msg s2)). split.
  - rewrite Hsplit. unfold install_split, _extract_zip_to_temp, bind.
    rewrite Hmk. unfold extractall. rewrite Hres.
    unfold try_finally, on_split_error. cbn [kind].
    unfold bind, critical, modify. fold s2. fold msg.
    rewrite Hrun. reflexivity.
  - destruct Hlogged as (Hl & _ & _ & _ & _ & Hr & Hc & _ & _ & Hd & _).
    rewrite Hd, Hl, Hr, Hc. unfold s2. simpl. rewrite Hdlg, Hlog, Htick.
    repeat split. exact Hthere.
Qed.

Lemma bad_archive_leaves_temp_dir_witness :
  FS.exists_ (root (sample_state "broken.apkm")) "/home/user"
    "/tmp/sageadb_ab12cd34" = false
  /\ exists s',
      install_app quiet_world (sample_state "broken.apkm") = (Return tt, s')
      /\ dialogs s'
         = [("Error", "Invalid .apkm file (not a valid ZIP archive).")]
      /\ log_output s'
         = ["[12:00:00] > Failed to read broken.apkm: invalid archive."]
      /\ FS.exists_ (root s') "/home/user" "/tmp/sageadb_ab12cd34" = true.
Proof.
  split; [reflexivity|].
  destruct (bad_archive_leaves_temp_dir quiet_world
              (sample_state "broken.apkm")
              (snd (mkdtemp quiet_world "sageadb_" (sample_state "broken.apkm")))
              ".apkm" "/tmp/sageadb_ab12cd34")
    as [s' [Hrun [Hd [Hl [_ Hr]]]]];
    [reflexivity|now left|reflexivity|reflexivity| |reflexivity|].
  - repeat constructor; discriminate.
  - exists s'. split; [exact Hrun|]. split; [exact Hd|]. split; [exact Hl|].
    assert (Hcwd : cwd s' = "/home/user")
      by (injection Hrun as <-; reflexivity).
    rewrite <- Hcwd. exact Hr.
Defined.

(** Where the archive is sound the same operation does remove the
    directory it extracted to. *)
Lemma sound_archive_temp_dir_removed :
  let s' := snd (install_app quiet_world (sample_state "game.xapk")) in
  subprocess_calls s'
  = [["/opt/sageadb/adb.exe"; "install-multiple";
      "/tmp/sageadb_ab12cd34/base.apk"; "/tmp/sageadb_ab12cd34/split1.apk"]]
  /\ FS.exists_ (root s') "/home/user" "/tmp/sageadb_ab12cd34" = false.
Proof. split; reflexivity. Qed.

(** ** What every operation leaves alone *)

Lemma extends_refl {A} (l : list A) : extends l l.
Proof. exists []. now rewrite app_nil_r. Qed.

Lemma extends_trans {A} (l1 l2 l3 : list A) :
  extends l1 l2 -> extends l2 l3 -> extends l1 l3.
Proof.
  intros [m1 ->] [m2 ->]. exists (m1 ++ m2)%list. now rewrite app_assoc.
Qed.

Lemma extends_app {A} (l m : list A) : extends l (l ++ m)%list.
Proof. now exists m. Qed.

Lemma grows_refl s : grows s s.
Proof.
  unfold grows. repeat split; try apply extends_refl; try lia.
  exists "". now rewrite append_nil_r.
Qed.

Lemma grows_trans s1 s2 s3 : grows s1 s2 -> grows s2 s3 -> grows s1 s3.
Proof.
  unfold grows.
  intros (A1 & [t1 B1] & C1 & D1 & E1 & F1 & G1)
         (A2 & [t2 B2] & C2 & D2 & E2 & F2 & G2).
  split; [eapply extends_trans; eassumption|].
  split; [exists (t1 ++ t2); now rewrite B2, B1, append_assoc|].
  split; [eapply extends_trans; eassumption|].
  split; [eapply extends_trans; eassumption|].
  split; [eapply extends_trans; eassumption|].
  split; [lia|].
  destruct G1 as (a1 & b1 & c1 & d1 & e1 & f1 & g1 & h1 & i1 & j1 & k1).
  destruct G2 as (a2 & b2 & c2 & d2 & e2 & f2 & g2 & h2 & i2 & j2 & k2).
  repeat split; congruence.
Qed.

Lemma grows_records s s' : grows s s' -> records_grow s s'.
Proof.
  unfold grows, records_grow.
  intros (A1 & B1 & C1 & D1 & E1 & F1 & _ & G1). repeat split; tauto.
Qed.

Lemma records_grow_trans s1 s2 s3 :
  records_grow s1 s2 -> records_grow s2 s3 -> records_grow s1 s3.
Proof.
  unfold records_grow.
  intros (A1 & [t1 B1] & C1 & D1 & E1 & F1 & G1)
         (A2 & [t2 B2] & C2 & D2 & E2 & F2 & G2).
  split; [eapply extends_trans; eassumption|].
  split; [exists (t1 ++ t2); now rewrite B2, B1, append_assoc|].
  split; [eapply extends_trans; eassumption|].
  split; [eapply extends_trans; eassumption|].
  split; [eapply extends_trans; eassumption|].
  split; [lia|].
  destruct G1 as (a1 & b1 & c1 & d1 & e1 & f1 & g1 & h1 & i1 & j1).
  destruct G2 as (a2 & b2 & c2 & d2 & e2 & f2 & g2 & h2 & i2 & j2).
  repeat split; congruence.
Qed.

Lemma records_grow_with_root r s : records_grow s (with_root r s).
Proof.
  unfold records_grow. simpl. repeat split; try apply extends_refl; try lia.
  exists "". now rewrite append_nil_r.
Qed.

Lemma returns_keeps {A} (c : M A) : returns_growing c -> keeps_growing c.
Proof. intros H s. destruct (H s) as (a & s' & -> & G). exact G. Qed.

Lemma returns_ret {A} (a : A) : returns_growing (ret a).
Proof. intros s. exists a, s. split; [reflexivity|apply grows_refl]. Qed.

Lemma returns_get {A} (f : state -> A) : returns_growing (get f).
Proof. intros s. exists (f s), s. split; [reflexivity|apply grows_refl]. Qed.

Lemma returns_bind {A B} (c : M A) (k : A -> M B) :
  returns_growing c -> (forall a, returns_growing (k a)) ->
  returns_growing (bind c k).
Proof.
  intros Hc Hk s. destruct (Hc s) as (a & s1 & E1 & G1).
  destruct (Hk a s1) as (b & s2 & E2 & G2).
  exists b, s2. unfold bind. rewrite E1. split; [exact E2|].
  eapply grows_trans; eassumption.
Qed.

Lemma keeps_bind {A B} (c : M A) (k : A -> M B) :
  keeps_growing c -> (forall a, keeps_growing (k a)) ->
  keeps_growing (bind c k).
Proof.
  intros Hc Hk s. unfold bind. pose proof (Hc s) as G1.
  destruct (c s) as [[a|e] s1]; simpl in *; [|exact G1].
  eapply grows_trans; [exact G1|apply Hk].
Qed.

Lemma returns_try_except {A} (c : M A) (h : exn -> M A) :
  keeps_growing c -> (forall e, returns_growing (h e)) ->
  returns_growing (try_except c h).
Proof.
  intros Hc Hh s. unfold try_except. pose proof (Hc s) as G1.
  destruct (c s) as [[a|e] s1]; simpl in *.
  - now exists a, s1.
  - destruct (Hh e s1) as (b & s2 & E2 & G2). exists b, s2.
    split; [exact E2|]. eapply grows_trans; eassumption.
Qed.

Lemma returns_log w command output : returns_growing (_log w command output).
Proof.
  intros s. eexists. eexists. split; [reflexivity|].
  unfold grows, append_debug. simpl.
  destruct (append_ok w (tick s)); simpl;
    repeat split; try apply extends_refl; try apply extends_app;
    try lia; try (eexists; reflexivity).
  exists "". now rewrite append_nil_r.
Qed.

Lemma returns_critical title text : returns_growing (critical title text).
Proof.
  intros s. eexists. eexists. split; [reflexivity|].
  unfold grows. simpl.
  repeat split; try apply extends_refl; try apply extends_app; try lia.
  exists "". now rewrite append_nil_r.
Qed.

Lemma keeps_call_subprocess w args : keeps_growing (call_subprocess w args).
Proof.
  intros s. unfold grows, call_subprocess. simpl.
  repeat split; try apply extends_refl; try apply extends_app; try lia.
  exists "". now rewrite append_nil_r.
Qed.

Lemma returns_run_adb_command w args return_output :
  returns_growing (run_adb_command w args return_output).
Proof.
  unfold run_adb_command. apply returns_try_except.
  - apply keeps_bind; [apply keeps_call_subprocess|]. intros result.
    apply returns_keeps. apply returns_bind; [apply returns_log|].
    intros _. apply returns_ret.
  - intros e. apply returns_bind; [apply returns_critical|]. intros _.
    apply returns_bind; [apply returns_log|]. intros _. apply returns_ret.
Qed.

Lemma returns_for_each {A} (l : list A) (body : A -> M unit) :
  (forall a, returns_growing (body a)) -> returns_growing (for_each l body).
Proof.
  intros Hb. induction l as [|a l IH]; simpl; [apply returns_ret|].
  apply returns_bind; [apply Hb|]. intros _. exact IH.
Qed.

Lemma returns_push_obb_dirs w d : returns_growing (_push_obb_dirs w d).
Proof.
  unfold _push_obb_dirs. apply returns_for_each. intros [pkg local_dir].
  apply returns_bind; [apply returns_get|]. intros adb.
  apply returns_bind; [apply returns_run_adb_command|]. intros _.
  apply returns_bind; [apply returns_log|]. intros _.
  apply returns_bind; [apply returns_run_adb_command|]. intros _.
  apply returns_ret.
Qed.

Lemma returns_install_apks w path : returns_growing (install_apks w path).
Proof.
  unfold install_apks, _bundletool_path.
  apply returns_bind; [apply returns_get|]. intros bt.
  apply returns_bind; [apply returns_get|]. intros found.
  destruct found; simpl.
  - apply returns_bind; [apply returns_get|]. intros adb.
    apply returns_try_except.
    + apply keeps_bind; [apply keeps_call_subprocess|]. intros result.
      apply returns_keeps, returns_log.
    + intros e. apply returns_bind; [apply returns_critical|]. intros _.
      apply returns_log.
  - apply returns_bind; [apply returns_get|]. intros base.
    apply returns_bind; [apply returns_critical|]. intros _.
    apply returns_log.
Qed.

Lemma keeps_install_extracted w ext temp_dir :
  keeps_growing (install_extracted w ext temp_dir).
Proof.
  unfold install_extracted.
  apply keeps_bind; [apply returns_keeps, returns_get|]. intros apk_files.
  apply keeps_bind.
  - destruct apk_files as [|f fs]; [apply returns_keeps, returns_log|].
    apply keeps_bind; [apply returns_keeps, returns_get|]. intros adb.
    apply keeps_bind; [apply keeps_call_subprocess|]. intros result.
    apply returns_keeps, returns_log.
  - intros _. apply keeps_bind; [apply returns_keeps, returns_get|].
    intros obb_pkg_dirs. destruct obb_pkg_dirs as [|e es].
    + apply returns_keeps, returns_log.
    + apply keeps_bind; [apply returns_keeps, returns_log|]. intros _.
      apply returns_keeps, returns_push_obb_dirs.
Qed.

Lemma returns_on_split_error w ext path e :
  returns_growing (on_split_error w ext path e).
Proof.
  unfold on_split_error.
  destruct (kind e);
    (apply returns_bind; [apply returns_critical|]; intros _;
     apply returns_log).
Qed.

Lemma extract_records w path s :
  records_grow s (snd (_extract_zip_to_temp w path s)).
Proof.
  unfold _extract_zip_to_temp, bind, mkdtemp, extractall, ret.
  destruct (FS.exists_ (root s) (cwd s) _); simpl.
  { unfold records_grow. simpl.
    repeat split; try apply extends_refl; try lia.
    exists "". now rewrite append_nil_r. }
  assert (T : forall r, records_grow s (with_root r (with_tick (S (tick s)) s))).
  { intros r. unfold records_grow. simpl.
    repeat split; try apply extends_refl; try lia.
    exists "". now rewrite append_nil_r. }
  destruct (FS.put_at _ (FS.Dir []) (root s)) as [r1|]; simpl.
  - destruct (FS.resolve r1 (cwd s) path) as [[[tree|]|es]|]; simpl;
      try apply T.
    destruct (FS.put_at _ (FS.Dir tree) r1) as [r2|]; simpl.
    + eapply records_grow_trans; [apply (T r1)|apply records_grow_with_root].
    + apply T.
  - unfold records_grow. simpl.
    repeat split; try apply extends_refl; try lia.
    exists "". now rewrite append_nil_r.
Qed.

Lemma split_cleanup_records w temp_dir s :
  split_cleanup w temp_dir s = (Return tt, snd (split_cleanup w temp_dir s))
  /\ records_grow s (snd (split_cleanup w temp_dir s)).
Proof.
  destruct temp_dir as [d|]; simpl.
  - destruct (PyStr.truthy d); simpl; split; try reflexivity.
    + destruct (rmtree_leaves w (tick s)) as [kept|];
        [|apply records_grow_with_root].
      destruct (FS.put_at (FS.components d) (FS.Dir kept) (root s));
        [apply records_grow_with_root|apply grows_records, grows_refl].
    + apply grows_records, grows_refl.
  - split; [reflexivity|apply grows_records, grows_refl].
Qed.

Lemma install_split_returns w ext path s :
  exists s', install_split w ext path s = (Return tt, s') /\ records_grow s s'.
Proof.
  unfold install_split. pose proof (extract_records w path s) as G0.
  destruct (_extract_zip_to_temp w path s) as [[temp_dir|e] s1]; simpl in G0.
  - destruct (returns_try_except _ _
                (keeps_install_extracted w ext temp_dir)
                (returns_on_split_error w ext path) s1) as ([] & s2 & E2 & G2).
    destruct (split_cleanup_records w (Some temp_dir) s2) as [E3 G3].
    unfold try_finally. rewrite E2, E3. eexists. split; [reflexivity|].
    eapply records_grow_trans; [exact G0|].
    eapply records_grow_trans; [apply grows_records, G2|exact G3].
  - destruct (returns_on_split_error w ext path e s1) as ([] & s2 & E2 & G2).
    unfold try_finally. rewrite E2. simpl. eexists. split; [reflexivity|].
    eapply records_grow_trans; [exact G0|apply grows_records, G2].
Qed.

Lemma install_app_returns w s :
  exists s', install_app w s = (Return tt, s') /\ records_grow s s'.
Proof.
  unfold install_app, bind at 1, get at 1.
  destruct (negb (PyStr.truthy (PyStr.strip (install_apk_input s)))).
  { destruct (returns_log w "" "No APK path specified." s) as ([] & s' & E & G).
    exists s'. split; [exact E|apply grows_records, G]. }
  set (path := PyStr.strip (install_apk_input s)).
  set (ext := PyStr.lower (snd (PosixPath.splitext path))).
  destruct (String.eqb ext ".apk").
  { assert (R : returns_growing
                  (bind (get adb_path)
                     (fun adb =>
                        bind (run_adb_command w [adb; "install"; path] false)
                          (fun _ => ret tt)))).
    { apply returns_bind; [apply returns_get|]. intros adb.
      apply returns_bind; [apply returns_run_adb_command|]. intros _.
      apply returns_ret. }
    destruct (R s) as ([] & s' & E & G).
    exists s'. split; [exact E|apply grows_records, G]. }
  destruct (String.eqb ext ".apks").
  { destruct (returns_install_apks w path s) as ([] & s' & E & G).
    exists s'. split; [exact E|apply grows_records, G]. }
  destruct (String.eqb ext ".apkm" || String.eqb ext ".xapk").
  { apply install_split_returns. }
  match goal with
  | |- context [_log w "" ?m s] =>
      destruct (returns_log w "" m s) as ([] & s' & E & G)
  end.
  exists s'. split; [exact E|apply grows_records, G].
Qed.

(** X1.  [install_app] returns for every state and whatever its
    surroundings answer: each exception of a child process, of
    [mkdtemp] or of the extraction ends in a handler. *)
Theorem install_app_always_returns (w : world) (s : state) :
  fst (install_app w s) = Return tt.
Proof. destruct (install_app_returns w s) as (s' & -> & _). reflexivity. Qed.

(** X2.  [install_app] only adds: what is in the log, in [debug.txt],
    among the dialogs, the printed messages and the launched commands
    stays in place in front of what it adds, and the configuration, the
    working directory, the path field and the logcat fields are not
    written. *)
Theorem install_app_only_adds_records (w : world) (s : state) :
  records_grow s (snd (install_app w s)).
Proof. destruct (install_app_returns w s) as (s' & -> & G). exact G. Qed.

(** ** Creating and removing the extraction directory *)

Lemma set_entry_twice name a b es :
  FS.set_entry name b (FS.set_entry name a es) = FS.set_entry name b es.
Proof.
  induction es as [|[k m] es IH]; simpl.
  - now rewrite String.eqb_refl.
  - destruct (String.eqb k name) eqn:E; simpl; rewrite E; [reflexivity|].
    now rewrite IH.
Qed.

Lemma set_entry_same name child es :
  FS.lookup name es = Some child -> FS.set_entry name child es = es.
Proof.
  induction es as [|[k m] es IH]; simpl; [discriminate|].
  destruct (String.eqb k name) eqn:E.
  - now intros [= ->].
  - intros H. now rewrite IH.
Qed.

Lemma del_entry_set_entry name b es :
  FS.lookup name es = None -> FS.del_entry name (FS.set_entry name b es) = es.
Proof.
  induction es as [|[k m] es IH]; simpl.
  - now rewrite String.eqb_refl.
  - destruct (String.eqb k name) eqn:E; [discriminate|].
    intros H. simpl. rewrite E. now rewrite IH.
Qed.

Lemma resolve_from_keeps_stack segs :
  forall stack, stack <> [] -> FS.resolve_from stack segs <> Some [].
Proof.
  induction segs as [|seg rest IH]; intros stack Hne; simpl.
  - congruence.
  - destruct stack as [|[a|es] up]; [congruence|discriminate|].
    destruct (String.eqb seg "" || String.eqb seg "."); [now apply IH|].
    destruct (String.eqb seg "..").
    + apply IH. destruct up; discriminate.
    + destruct (FS.lookup seg es); [|discriminate]. apply IH. discriminate.
Qed.

Lemma put_at_deeper seg seg' rest new es :
  FS.put_at (seg :: seg' :: rest) new (FS.Dir es)
  = match FS.lookup seg es with
    | Some child =>
        match FS.put_at (seg' :: rest) new child with
        | Some child' => Some (FS.Dir (FS.set_entry seg child' es))
        | None => None
        end
    | None => None
    end.
Proof. reflexivity. Qed.

Lemma remove_at_deeper seg seg' rest es :
  FS.remove_at (seg :: seg' :: rest) (FS.Dir es)
  = match FS.lookup seg es with
    | Some child =>
        FS.Dir (FS.set_entry seg (FS.remove_at (seg' :: rest) child) es)
    | None => FS.Dir es
    end.
Proof. reflexivity. Qed.

(** A directory put where nothing was, filled, and removed again: the
    tree is the one before. *)
Lemma put_put_remove segs :
  forall a b n r1 r2 up,
    Forall plain segs ->
    FS.resolve_from (n :: up) segs = None ->
    FS.put_at segs a n = Some r1 ->
    FS.put_at segs b r1 = Some r2 ->
    FS.remove_at segs r2 = n.
Proof.
  induction segs as [|seg rest IH]; intros a b n r1 r2 up Hp Hres H1 H2.
  - discriminate.
  - inversion Hp as [|? ? Hseg Hrest]; subst.
    destruct n as [x|es]; [discriminate|].
    rewrite (plain_step _ _ _ _ Hseg) in Hres.
    destruct rest as [|seg' rest'].
    + simpl in H1. injection H1 as <-. simpl in H2. injection H2 as <-.
      simpl. rewrite set_entry_twice.
      destruct (FS.lookup seg es) eqn:L; [discriminate|].
      now rewrite del_entry_set_entry.
    + rewrite put_at_deeper in H1.
      destruct (FS.lookup seg es) as [child|] eqn:L; [|discriminate].
      destruct (FS.put_at (seg' :: rest') a child) as [c1|] eqn:P1;
        [|discriminate].
      injection H1 as <-. rewrite put_at_deeper in H2.
      rewrite lookup_set_entry in H2.
      destruct (FS.put_at (seg' :: rest') b c1) as [c2|] eqn:P2;
        [|discriminate].
      injection H2 as <-. rewrite remove_at_deeper.
      rewrite lookup_set_entry, !set_entry_twice.
      rewrite (IH a b child c1 c2 _ Hrest Hres P1 P2).
      now rewrite set_entry_same.
Qed.

Lemma split_not_nil ch s : PyStr.split ch s <> [].
Proof.
  destruct s as [|c r]; simpl; [discriminate|].
  destruct (Ascii.eqb c ch); [discriminate|].
  destruct (PyStr.split ch r); discriminate.
Qed.

Lemma absolute_starts d :
  PyStr.startswith d "/" = true -> exists d', d = String "/"%char d'.
Proof.
  unfold PyStr.startswith. destruct d as [|c d']; cbn [String.prefix].
  - discriminate.
  - destruct (ascii_dec "/" c) as [<-|]; [|discriminate]. now exists d'.
Qed.

Lemma absolute_has_components d :
  PyStr.startswith d "/" = true ->
  PyStr.split "/" d = "" :: FS.components d ->
  FS.components d <> [].
Proof.
  intros Habs Hnorm Hnil. rewrite Hnil in Hnorm.
  destruct (absolute_starts d Habs) as [d' ->].
  simpl in Hnorm. injection Hnorm as Hnorm.
  now apply (split_not_nil "/"%char d').
Qed.

Lemma extract_inversion w path s d s1 :
  _extract_zip_to_temp w path s = (Return d, s1) ->
  exists r1 tree,
    FS.exists_ (root s) (cwd s) d = false
    /\ FS.put_at (FS.components d) (FS.Dir []) (root s) = Some r1
    /\ FS.put_at (FS.components d) (FS.Dir tree) r1 = Some (root s1)
    /\ cwd s1 = cwd s.
Proof.
  unfold _extract_zip_to_temp, bind, mkdtemp, extractall, ret.
  set (d0 := PosixPath.join (gettempdir w) _).
  destruct (FS.exists_ (root s) (cwd s) d0) eqn:Ex; [discriminate|].
  destruct (FS.put_at (FS.components d0) (FS.Dir []) (root s)) as [r1|] eqn:P1;
    [|discriminate].
  simpl.
  destruct (FS.resolve r1 (cwd s) path) as [[[tree|]|es]|]; try discriminate.
  simpl.
  destruct (FS.put_at (FS.components d0) (FS.Dir tree) r1) as [r2|] eqn:P2;
    [|discriminate].
  intros [= <- <-]. exists r1, tree. simpl. repeat split; assumption.
Qed.

(** X3.  When the archive could be extracted and [shutil.rmtree]
    removes what it is asked to, the tree of files and directories
    ([debug.txt] and the doings of child processes aside) is after
    [install_app] what it was before, whatever happened to the
    installation itself: the directory [mkdtemp] made did not exist
    before and does not exist afterwards.  [d], the directory, is an
    absolute path without [.], [..] or empty components. *)
Theorem split_install_restores_file_system
  (w : world) (s s1 : state) (ext d : string) :
  let path := PyStr.strip (install_apk_input s) in
  PyStr.lower (snd (PosixPath.splitext path)) = ext ->
  ext = ".apkm" \/ ext = ".xapk" ->
  _extract_zip_to_temp w path s = (Return d, s1) ->
  PyStr.startswith d "/" = true ->
  PyStr.split "/" d = "" :: FS.components d ->
  Forall plain (FS.components d) ->
  (forall t, rmtree_leaves w t = None) ->
  root (snd (install_app w s)) = root s
  /\ FS.exists_ (root (snd (install_app w s))) (cwd (snd (install_app w s))) d
     = false.
Proof.
  intros path Hext Hkind Hx Habs Hnorm Hplain Hrm.
  destruct (extract_inversion _ _ _ _ _ Hx) as (r1 & tree & Hno & P1 & P2 & Hcwd).
  assert (Ht : PyStr.truthy path = true).
  { destruct path eqn:E; [|reflexivity].
    destruct Hkind as [K|K]; rewrite K in Hext; discriminate. }
  assert (Hd : PyStr.truthy d = true)
    by (destruct (absolute_starts d Habs) as [d' ->]; reflexivity).
  assert (Hsplit : install_app w s = install_split w ext path s).
  { unfold install_app, bind, get. fold path. rewrite Ht. simpl. rewrite Hext.
    destruct Hkind as [->| ->]; reflexivity. }
  assert (Hroot : root (snd (install_app w s)) = root s).
  { rewrite Hsplit. unfold install_split. rewrite Hx.
    destruct (returns_try_except _ _
                (keeps_install_extracted w ext d)
                (returns_on_split_error w ext path) s1) as ([] & s2 & E2 & G2).
    unfold try_finally. rewrite E2. unfold split_cleanup. rewrite Hd.
    unfold rmtree, modify. rewrite Hrm. simpl.
    assert (R2 : root s2 = root s1) by apply G2. rewrite R2.
    destruct (root s) as [x|es] eqn:Hr.
    { pose proof (absolute_has_components d Habs Hnorm) as Hc.
      destruct (FS.components d) as [|seg rest]; [congruence|discriminate]. }
    apply (put_put_remove _ (FS.Dir []) (FS.Dir tree) (FS.Dir es) r1 _ []
             Hplain); [|exact P1|exact P2].
    unfold FS.exists_, FS.resolve in Hno. rewrite Habs in Hno.
    destruct (String.eqb_spec d "");
      [destruct (absolute_starts d Habs) as [d' ->]; discriminate|].
    rewrite Hnorm in Hno. simpl in Hno.
    destruct (FS.resolve_from [FS.Dir es] (FS.components d)) as [[|n0 st]|] eqn:R;
      [|discriminate|reflexivity].
    exfalso. revert R. apply resolve_from_keeps_stack. discriminate. }
  split; [exact Hroot|].
  rewrite Hroot.
  assert (C : cwd (snd (install_app w s)) = cwd s).
  { destruct (install_app_returns w s) as (s' & -> & G). apply G. }
  now rewrite C.
Qed.

Lemma split_install_restores_file_system_witness :
  root (snd (install_app quiet_world (sample_state "game.xapk"))) = sample_root
  /\ FS.exists_ (root (snd (install_app quiet_world (sample_state "game.xapk"))))
       (cwd (snd (install_app quiet_world (sample_state "game.xapk"))))
       "/tmp/sageadb_ab12cd34" = false.
Proof.
  apply (split_install_restores_file_system quiet_world
           (sample_state "game.xapk")
           (snd (_extract_zip_to_temp quiet_world "game.xapk"
                   (sample_state "game.xapk")))
           ".xapk" "/tmp/sageadb_ab12cd34").
  - reflexivity.
  - now right.
  - reflexivity.
  - reflexivity.
  - reflexivity.
  - repeat constructor; discriminate.
  - reflexivity.
Defined.

(** ** Pushing the bundled assets *)

Lemma run_adb_command_effect w args return_output s :
  exists s',
    run_adb_command w args return_output s
    = (Return (match subprocess_run w (tick s) args with
               | Return result =>
                   if return_output then Some (stdout result) else None
               | Raise _ => None
               end), s')
    /\ subprocess_calls s' = (subprocess_calls s ++ [args])%list
    /\ tick s' = S (S (tick s))
    /\ grows s s'.
Proof.
  destruct (returns_run_adb_command w args return_output s) as (r & s' & E & G).
  exists s'. split; [|split; [|split; [|exact G]]].
  - rewrite E. f_equal. revert E.
    unfold run_adb_command, try_except, bind, call_subprocess, critical,
      modify, ret, _log.
    destruct (subprocess_run w (tick s) args); simpl; now intros [= <- _].
  - revert E.
    unfold run_adb_command, try_except, bind, call_subprocess, critical,
      modify, ret, _log, append_debug.
    destruct (subprocess_run w (tick s) args); simpl;
      destruct (append_ok w (S (tick s))); simpl; now intros [= _ <-].
  - revert E.
    unfold run_adb_command, try_except, bind, call_subprocess, critical,
      modify, ret, _log, append_debug.
    destruct (subprocess_run w (tick s) args); simpl;
      destruct (append_ok w (S (tick s))); simpl; now intros [= _ <-].
Qed.

Lemma log_keeps_calls w command output s :
  subprocess_calls (snd (_log w command output s)) = subprocess_calls s
  /\ adb_path (snd (_log w command output s)) = adb_path s.
Proof.
  unfold _log, append_debug. simpl.
  destruct (append_ok w (tick s)); split; reflexivity.
Qed.

Lemma push_obb_dirs_effect (w : world) (obb_pkg_dirs : dict) (s : state) :
  fst (_push_obb_dirs w obb_pkg_dirs s) = Return tt
  /\ subprocess_calls (snd (_push_obb_dirs w obb_pkg_dirs s))
     = (subprocess_calls s
        ++ flat_map (push_commands (adb_path s)) obb_pkg_dirs)%list.
Proof.
  revert s. induction obb_pkg_dirs as [|[pkg local_dir] d IH]; intros s.
  - simpl. now rewrite app_nil_r.
  - unfold _push_obb_dirs. cbn [for_each]. fold (_push_obb_dirs w d).
    unfold bind, get. cbv beta zeta.
    destruct (run_adb_command_effect w
                [adb_path s; "shell"; "mkdir"; "-p"; "/sdcard/Android/obb/" ++ pkg]
                false s) as (s1 & E1 & C1 & _ & G1).
    rewrite E1.
    destruct (log_keeps_calls w "" ("Pushing OBB assets for " ++ pkg ++ "...") s1)
      as [C2 A2].
    set (s2 := snd (_log w "" ("Pushing OBB assets for " ++ pkg ++ "...") s1)) in *.
    assert (E2 : _log w "" ("Pushing OBB assets for " ++ pkg ++ "...") s1
                 = (Return tt, s2)) by reflexivity.
    rewrite E2.
    destruct (run_adb_command_effect w
                [adb_path s; "push"; local_dir; "/sdcard/Android/obb/" ++ pkg]
                false s2) as (s3 & E3 & C3 & _ & G3).
    rewrite E3. unfold ret.
    destruct (IH s3) as [R3 K3]. split; [exact R3|].
    rewrite K3, C3, C2, C1.
    assert (A : adb_path s3 = adb_path s).
    { assert (A3 : adb_path s3 = adb_path s2) by apply G3.
      assert (A1 : adb_path s1 = adb_path s) by apply G1. congruence. }
    rewrite A. simpl. now rewrite <- !app_assoc.
Qed.

(** X4.  [_push_obb_dirs] returns whatever the device answers, and the
    commands it launches are, for each package of the mapping in the
    mapping's order, [shell mkdir -p] of the remote directory and then
    [push] of the local one: none is skipped after a failure. *)
Theorem push_obb_dirs_commands (w : world) (obb_pkg_dirs : dict) (s : state) :
  fst (_push_obb_dirs w obb_pkg_dirs s) = Return tt
  /\ subprocess_calls (snd (_push_obb_dirs w obb_pkg_dirs s))
     = (subprocess_calls s
        ++ flat_map (push_commands (adb_path s)) obb_pkg_dirs)%list.
Proof. apply push_obb_dirs_effect. Qed.

(** ** What the asset mapping holds *)

Lemma candidate_sound root cwd e k v :
  obb_candidate root cwd e = Some (k, v) ->
  k = PosixPath.basename v
  /\ exists names,
      FS.listdir root cwd v = Some names /\ existsb is_obb names = true.
Proof.
  unfold obb_candidate. destruct e as [[r dirs] files].
  destruct (filter is_obb files); [discriminate|].
  destruct (path_parts r) as [parts|]; [|discriminate].
  destruct (elem "android" parts); [|discriminate].
  destruct (index "android" parts 0) as [idx_android|]; [|discriminate].
  destruct (elem "obb" (skipn (idx_android + 1) parts)); [|discriminate].
  destruct (index "obb" parts (idx_android + 1)) as [idx_obb|]; [|discriminate].
  destruct (idx_obb + 1 <? length parts)%nat; [|discriminate].
  destruct (first_obb (PyStr.split "/" r) 0 (length (PyStr.split "/" r)))
    as [i|]; [|discriminate].
  destruct (firstn (i + 2) (PyStr.split "/" r)) as [|a p]; [discriminate|].
  destruct (FS.listdir root cwd (PosixPath.join a p)) as [names|] eqn:L;
    [|discriminate].
  destruct (existsb is_obb names) eqn:X; [|discriminate].
  intros [= <- <-]. split; [reflexivity|]. now exists names.
Qed.

Lemma dict_set_in k v k0 v0 d :
  In (k, v) (dict_set k0 v0 d) -> In (k, v) d \/ (k, v) = (k0, v0).
Proof.
  induction d as [|[k' v'] d IH]; simpl.
  - intros [H|[]]. right. congruence.
  - destruct (String.eqb_spec k' k0) as [->|Hne]; simpl.
    + intros [H|H]; [right; congruence|left; now right].
    + intros [H|H]; [left; now left|].
      destruct (IH H) as [H'|H']; [left; now right|now right].
Qed.

(** X5.  Every entry of the mapping [_find_obb_package_dirs] returns is
    sound: the key is the last component of the directory, and the
    directory can be listed and has, among the names [os.listdir]
    gives, one that ends in [.obb], whatever the case of its letters
    (a file, or a sub-directory: the listing does not tell). *)
Theorem find_obb_package_dirs_sound
  (root : FS.node) (cwd root_dir k v : string) :
  In (k, v) (_find_obb_package_dirs root cwd root_dir) ->
  k = PosixPath.basename v
  /\ exists names,
      FS.listdir root cwd v = Some names /\ existsb is_obb names = true.
Proof.
  unfold _find_obb_package_dirs.
  assert (G : forall l d,
             (forall k v, In (k, v) d ->
                k = PosixPath.basename v
                /\ exists names,
                    FS.listdir root cwd v = Some names
                    /\ existsb is_obb names = true) ->
             forall k v, In (k, v) (fold_left (obb_visit root cwd) l d) ->
                k = PosixPath.basename v
                /\ exists names,
                    FS.listdir root cwd v = Some names
                    /\ existsb is_obb names = true).
  { induction l as [|e l IH]; intros d Hd k' v' Hin; simpl in Hin.
    - now apply Hd.
    - apply (IH (obb_visit root cwd d e)); [|exact Hin].
      intros k1 v1 H1. unfold obb_visit in H1.
      destruct (obb_candidate root cwd e) as [[k0 v0]|] eqn:E; [|now apply Hd].
      destruct (dict_set_in _ _ _ _ _ H1) as [H|H]; [now apply Hd|].
      injection H as -> ->. now apply (candidate_sound root cwd e). }
  apply G. intros k' v' [].
Qed.

Lemma find_obb_package_dirs_sound_witness :
  "com.x" = PosixPath.basename "x/b/Android/obb/com.x"
  /\ exists names,
      FS.listdir twice_root "/" "x/b/Android/obb/com.x" = Some names
      /\ existsb is_obb names = true.
Proof.
  apply (find_obb_package_dirs_sound twice_root "/" "x").
  vm_compute. left. reflexivity.
Defined.

Lemma dict_set_keys k v d :
  map fst (dict_set k v d)
  = if existsb (String.eqb k) (map fst d) then map fst d
    else (map fst d ++ [k])%list.
Proof.
  induction d as [|[k' v'] d IH]; simpl; [reflexivity|].
  rewrite (String.eqb_sym k k').
  destruct (String.eqb k' k) eqn:E; simpl; [reflexivity|].
  rewrite IH. now destruct (existsb (String.eqb k) (map fst d)).
Qed.

Lemma dict_set_nodup k v d :
  NoDup (map fst d) -> NoDup (map fst (dict_set k v d)).
Proof.
  intros H. rewrite dict_set_keys.
  destruct (existsb (String.eqb k) (map fst d)) eqn:E; [exact H|].
  apply NoDup_app; [exact H|repeat constructor; intros []|].
  intros x Hx [Hk|[]]. subst x.
  assert (existsb (String.eqb k) (map fst d) = true); [|congruence].
  apply existsb_exists. exists k. split; [exact Hx|apply String.eqb_refl].
Qed.

(** X6.  No package identifier occurs twice among the keys of the
    mapping, so [_push_obb_dirs] pushes each package once. *)
Theorem find_obb_package_dirs_keys_unique
  (root : FS.node) (cwd root_dir : string) :
  NoDup (map fst (_find_obb_package_dirs root cwd root_dir)).
Proof.
  unfold _find_obb_package_dirs.
  assert (G : forall l d,
             NoDup (map fst d) ->
             NoDup (map fst (fold_left (obb_visit root cwd) l d))).
  { induction l as [|e l IH]; intros d Hd; simpl; [exact Hd|].
    apply IH. unfold obb_visit.
    destruct (obb_candidate root cwd e) as [[k v]|]; [|exact Hd].
    now apply dict_set_nodup. }
  apply G. constructor.
Qed.

(** ** More on the order of the packages *)

Section Stable.
Context {A K : Type} (key : A -> K) (leb : K -> K -> bool).
Variable sel : A -> bool.
Hypothesis sel_close :
  forall x y, sel x = true -> sel y = true -> leb (key x) (key y) = true.

Lemma insert_by_filter x l :
  filter sel (insert_by key leb x l) = filter sel (x :: l).
Proof.
  induction l as [|y l IH]; [reflexivity|].
  cbn [insert_by]. destruct (leb (key x) (key y)) eqn:E; [reflexivity|].
  cbn [filter] in *. rewrite IH.
  destruct (sel x) eqn:Sx; [|reflexivity].
  destruct (sel y) eqn:Sy; [|reflexivity].
  rewrite (sel_close x y Sx Sy) in E. discriminate.
Qed.

Lemma sort_by_filter l : filter sel (sort_by key leb l) = filter sel l.
Proof.
  induction l as [|x l IH]; [reflexivity|].
  cbn [sort_by]. rewrite insert_by_filter. cbn [filter]. now rewrite IH.
Qed.
End Stable.

Lemma key_leb_refl a : key_leb a a = true.
Proof.
  unfold key_leb. rewrite Nat.eqb_refl, string_leb_refl. apply orb_true_r.
Qed.

(** X7.  Sorting is stable: the files that share a basename, whatever
    the case of its letters, are returned in the order in which the
    walk met them. *)
Theorem collect_apk_files_stable
  (root : FS.node) (cwd root_dir name : string) :
  filter (fun p => String.eqb (PyStr.lower (PosixPath.basename p)) name)
         (_collect_apk_files root cwd root_dir)
  = filter (fun p => String.eqb (PyStr.lower (PosixPath.basename p)) name)
           (apk_paths root cwd root_dir).
Proof.
  unfold _collect_apk_files. apply sort_by_filter.
  intros x y Hx Hy. apply String.eqb_eq in Hx. apply String.eqb_eq in Hy.
  unfold sort_key. rewrite Hx, Hy. apply key_leb_refl.
Qed.

(** ** [install_app]: the two single-command strategies *)

(** X8.  For a path whose extension is [.apk], in any case of its
    letters, [install_app] launches exactly one command, [adb install]
    with the path stripped of surrounding blanks, and returns whatever
    the command does. *)
Theorem install_app_plain_apk (w : world) (s : state) :
  let path := PyStr.strip (install_apk_input s) in
  PyStr.lower (snd (PosixPath.splitext path)) = ".apk" ->
  fst (install_app w s) = Return tt
  /\ subprocess_calls (snd (install_app w s))
     = (subprocess_calls s ++ [[adb_path s; "install"; path]])%list.
Proof.
  intros path Hext.
  assert (Ht : PyStr.truthy path = true).
  { destruct path; [discriminate|reflexivity]. }
  destruct (run_adb_command_effect w [adb_path s; "install"; path] false s)
    as (s1 & E1 & C1 & _ & G1).
  assert (E : install_app w s = (Return tt, s1)).
  { unfold install_app, bind, get. fold path. rewrite Ht. simpl.
    rewrite Hext. simpl. rewrite E1. reflexivity. }
  rewrite E. simpl. split; [reflexivity|exact C1].
Qed.

Lemma install_app_plain_apk_witness :
  subprocess_calls (snd (install_app quiet_world (sample_state " Game.APK ")))
  = [["/opt/sageadb/adb.exe"; "install"; "Game.APK"]].
Proof.
  apply (install_app_plain_apk quiet_world (sample_state " Game.APK ")).
  reflexivity.
Defined.

(** X9.  For an [.apks] path [install_app] launches bundletool only if
    [bundletool.jar] is in the script folder.  Without it no process is
    launched: one dialog and one log entry say what is missing.  With
    it exactly one command is launched, [java -jar] on that jar with
    the archive and the adb path, and [install_app] returns whatever
    that command does. *)
Theorem install_app_apks (w : world) (s : state) :
  let path := PyStr.strip (install_apk_input s) in
  let bt := PosixPath.join (base_path s) ["bundletool.jar"] in
  PyStr.lower (snd (PosixPath.splitext path)) = ".apks" ->
  fst (install_app w s) = Return tt
  /\ if FS.exists_ (root s) (cwd s) bt
     then subprocess_calls (snd (install_app w s))
          = (subprocess_calls s
             ++ [["java"; "-jar"; bt; "install-apks";
                  ("--apks=" ++ path)%string;
                  ("--adb=" ++ adb_path s)%string]])%list
     else subprocess_calls (snd (install_app w s)) = subprocess_calls s
          /\ dialogs (snd (install_app w s))
             = (dialogs s
                ++ [("Error",
                     ("bundletool.jar not found in:" ++ nl ++ base_path s)%string)])%list
          /\ log_output (snd (install_app w s))
             = (log_output s
                ++ [("[" ++ now w (tick s)
                     ++ "] > bundletool.jar is required to install .apks archives.")%string])%list.
Proof.
  intros path bt Hext.
  assert (Ht : PyStr.truthy path = true).
  { destruct path; [discriminate|reflexivity]. }
  assert (E : install_app w s = install_apks w path s).
  { unfold install_app, bind, get. fold path. rewrite Ht. simpl.
    rewrite Hext. reflexivity. }
  rewrite E.
  destruct (returns_install_apks w path s) as ([] & s' & E' & G').
  rewrite E'. simpl. split; [reflexivity|].
  revert E'. unfold install_apks, _bundletool_path, bind, get. fold bt.
  destruct (FS.exists_ (root s) (cwd s) bt); simpl.
  - unfold try_except, bind, call_subprocess, critical, modify, _log,
      append_debug. simpl.
    destruct (subprocess_run w (tick s) _); simpl;
      destruct (append_ok w (S (tick s))); simpl;
      intros [= <-]; reflexivity.
  - unfold critical, modify, _log, append_debug. simpl.
    destruct (append_ok w (tick s)); simpl; intros [= <-]; repeat split.
Qed.

Lemma install_app_apks_witness :
  subprocess_calls (snd (install_app quiet_world (sample_state "bundle.apks")))
  = []
  /\ dialogs (snd (install_app quiet_world (sample_state "bundle.apks")))
     = [("Error", "bundletool.jar not found in:" ++ nl ++ "/opt/sageadb")].
Proof.
  destruct (install_app_apks quiet_world (sample_state "bundle.apks") eq_refl)
    as (_ & H).
  destruct H as (H1 & H2 & _). split; [exact H1|exact H2].
Defined.

(** ** The shape of [debug.txt] *)

Lemma ends_with_newline_app a b :
  b <> "" -> ends_with_newline (a ++ b) = ends_with_newline b.
Proof.
  intros Hb. induction a as [|c a IH]; [reflexivity|].
  simpl. destruct (a ++ b) eqn:E; [|exact IH].
  destruct a; simpl in E; [congruence|discriminate].
Qed.

Lemma ends_with_newline_nl a : ends_with_newline (a ++ nl) = true.
Proof. rewrite ends_with_newline_app; [reflexivity|discriminate]. Qed.

Lemma ends_with_newline_lines (f : string -> string) (ls : list string) :
  (forall line, exists a, f line = a ++ nl) ->
  ends_with_newline (String.concat "" (map f ls)) = true.
Proof.
  intros Hf. induction ls as [|l ls IH]; [reflexivity|].
  cbn [map String.concat]. destruct (Hf l) as [a ->].
  destruct (map f ls) eqn:E.
  - apply ends_with_newline_nl.
  - cbn [append]. destruct (String.concat "" (s :: l0)) eqn:C.
    + rewrite append_nil_r. apply ends_with_newline_nl.
    + rewrite ends_with_newline_app; [exact IH|discriminate].
Qed.

Lemma ends_with_newline_keep a b :
  ends_with_newline a = true -> ends_with_newline b = true ->
  ends_with_newline (a ++ b) = true.
Proof.
  intros Ha Hb. destruct b as [|c b]; [now rewrite append_nil_r|].
  rewrite ends_with_newline_app; [exact Hb|discriminate].
Qed.

Lemma run_op_ends_with_newline w o s :
  ends_with_newline (debug_txt s) = true ->
  ends_with_newline (debug_txt (snd (run_op w o s))) = true.
Proof.
  intros H. destruct (append_ok w (tick s)) eqn:Hok.
  - destruct o as [command output|line].
    + pose proof (view_of_log w command output s Hok) as V.
      apply (f_equal snd) in V. cbn [snd view_of] in V.
      cbn [run_op]. rewrite V.
      apply ends_with_newline_keep; [exact H|].
      apply ends_with_newline_keep.
      * destruct (PyStr.truthy command); [apply ends_with_newline_nl|reflexivity].
      * destruct (PyStr.truthy output && PyStr.truthy (PyStr.strip output));
          [|reflexivity].
        apply ends_with_newline_lines. intros line.
        exists ("[" ++ now w (tick s) ++ "] > " ++ line).
        now rewrite !append_assoc.
    + cbn [run_op]. unfold update_logcat_and_debug_file, append_debug.
      cbn [snd tick with_logcat_output]. rewrite Hok.
      cbn [debug_txt with_tick with_debug_txt with_logcat_output].
      apply ends_with_newline_keep; [exact H|].
      rewrite <- !append_assoc. apply ends_with_newline_nl.
  - destruct o as [command output|line]; cbn [run_op];
      unfold _log, update_logcat_and_debug_file, append_debug;
      cbn [snd tick with_logcat_output with_log_output]; rewrite Hok;
      exact H.
Qed.

(** X10.  As long as the appends succeed, [debug.txt] stays a file of
    whole lines: if it is empty or ends with a newline, it still does
    after any sequence of [_log] and [update_logcat_and_debug_file]
    calls, so no entry continues the line of another. *)
Theorem debug_txt_whole_lines (w : world) (ops : list log_op) (s : state) :
  (forall t, tick s <= t < tick s + length ops -> append_ok w t = true) ->
  ends_with_newline (debug_txt s) = true ->
  ends_with_newline (debug_txt (run_ops w ops s)) = true.
Proof.
  revert s. induction ops as [|o ops IH]; intros s Hok H; [exact H|].
  apply (IH (snd (run_op w o s))).
  - intros t Ht. rewrite run_op_tick in Ht. apply Hok. simpl. lia.
  - now apply run_op_ends_with_newline.
Qed.

Lemma debug_txt_whole_lines_witness :
  ends_with_newline
    (debug_txt (run_ops quiet_world
                  [Log "adb devices" ("one" ++ nl ++ "two"); Logcat "boot"; Log "" ""]
                  (sample_state ""))) = true.
Proof. apply debug_txt_whole_lines; reflexivity. Defined.

(** ** Trimmed text *)

Lemma rstrip_idempotent s : PyStr.rstrip (PyStr.rstrip s) = PyStr.rstrip s.
Proof.
  induction s as [|c s IH]; [reflexivity|].
  cbn [PyStr.rstrip]. destruct (PyStr.rstrip s) as [|c' r'] eqn:E.
  - destruct (PyStr.isspace c) eqn:Sc; [reflexivity|].
    cbn [PyStr.rstrip]. now rewrite Sc.
  - cbn [PyStr.rstrip] in *. now rewrite IH.
Qed.

Lemma rstrip_head c r :
  PyStr.isspace c = false -> PyStr.rstrip (String c r) <> "".
Proof.
  intros H. cbn [PyStr.rstrip]. destruct (PyStr.rstrip r); [|discriminate].
  rewrite H. discriminate.
Qed.

Lemma strip_rstrip s : PyStr.rstrip (PyStr.strip s) = PyStr.strip s.
Proof. unfold PyStr.strip. apply rstrip_idempotent. Qed.

Lemma lstrip_head s :
  PyStr.lstrip s = "" \/ exists c r, PyStr.lstrip s = String c r
                                     /\ PyStr.isspace c = false.
Proof.
  induction s as [|c s IH]; [now left|].
  simpl. destruct (PyStr.isspace c) eqn:E; [exact IH|].
  right. now exists c, s.
Qed.

Lemma lstrip_strip s : PyStr.lstrip (PyStr.strip s) = PyStr.strip s.
Proof.
  unfold PyStr.strip.
  destruct (lstrip_head s) as [->|(c & r & -> & Hc)]; [reflexivity|].
  cbn [PyStr.rstrip]. destruct (PyStr.rstrip r); rewrite ?Hc; simpl;
    now rewrite Hc.
Qed.

(** [strip] leaves alone what it returns. *)
Lemma strip_idempotent s : PyStr.strip (PyStr.strip s) = PyStr.strip s.
Proof.
  unfold PyStr.strip at 1. rewrite lstrip_strip. apply strip_rstrip.
Qed.

(** X16.  Of the notifications of [LogcatWorker.run], every one that is
    not a [CRITICAL ERROR] report is free of trailing blanks and
    newlines: the lines are relayed trimmed. *)
Theorem run_relays_trimmed_lines
  (k : worker) (x : LogcatWorker.execution) (m : string) :
  In m (snd (fst (LogcatWorker.run k x))) ->
  PyStr.startswith m "CRITICAL ERROR" = false ->
  PyStr.rstrip m = m.
Proof.
  unfold LogcatWorker.run. simpl. intros Hin Hc.
  apply in_app_or in Hin. destruct Hin as [Hin|[<-|[]]]; [|reflexivity].
  destruct (LogcatWorker.popen x) as [pid|e].
  - pose proof (read_loop_relays (LogcatWorker.lines x)
                  (LogcatWorker.stream_end x)) as Hr.
    destruct (LogcatWorker.read_loop (LogcatWorker.lines x)
                (LogcatWorker.stream_end x)) as [out r].
    simpl in Hr. subst out.
    apply in_app_or in Hin. destruct Hin as [Hin|Hin].
    + apply in_map_iff in Hin. destruct Hin as (line & <- & _).
      apply rstrip_idempotent.
    + destruct r as [e|]; [|contradiction].
      destruct (on_exception_one e) as (m' & Hm & Hs). rewrite Hm in Hin.
      destruct Hin as [<-|[]]. congruence.
  - destruct (on_exception_one e) as (m' & Hm & Hs). rewrite Hm in Hin.
    destruct Hin as [<-|[]]. congruence.
Qed.

Lemma run_relays_trimmed_lines_witness :
  PyStr.rstrip "I/ActivityManager: start" = "I/ActivityManager: start".
Proof.
  apply (run_relays_trimmed_lines
           {| worker_adb_path := "adb"; _is_running := false; process := None |}
           sample_execution).
  - vm_compute. right. left. reflexivity.
  - reflexivity.
Defined.

(** ** The Apps tab *)

Lemma lift_run_adb w (f : string -> list string) return_output x s' r :
  run_adb_command w (f (adb_path (core x))) return_output (core x)
  = (Return r, s') ->
  lift (bind (get adb_path) (fun adb => run_adb_command w (f adb) return_output)) x
  = (Return r, with_core s' x).
Proof. intros H. unfold lift, bind, get. now rewrite H. Qed.

Lemma got_captured (res : outcome completed) :
  got (match res with
       | Return result => Some (stdout result)
       | Raise _ => None
       end) = PyStr.truthy (captured res)
  /\ text_of (match res with
              | Return result => Some (stdout result)
              | Raise _ => None
              end) = captured res.
Proof. destruct res; split; reflexivity. Qed.

Lemma truthy_false s : PyStr.truthy s = false -> s = "".
Proof.
  unfold PyStr.truthy. intros H. apply negb_false_iff in H.
  now apply String.eqb_eq.
Qed.

(** What [refresh_app_list] leaves in the list, before it is said
    which items are red and which hidden. *)
Lemma refresh_app_list_run w x :
  let adb := adb_path (core x) in
  let t := tick (core x) in
  let all_apps :=
    captured (subprocess_run w t [adb; "shell"; "pm"; "list"; "packages"]) in
  let disabled :=
    captured (subprocess_run w (S (S t))
                [adb; "shell"; "pm"; "list"; "packages"; "-d"]) in
  exists x',
    refresh_app_list w x = (Return tt, x')
    /\ subprocess_calls (core x')
       = (subprocess_calls (core x)
          ++ [[adb; "shell"; "pm"; "list"; "packages"];
              [adb; "shell"; "pm"; "list"; "packages"; "-d"]])%list
    /\ apps_list x'
       = map (fun it =>
                {| item_text := item_text it; item_red := item_red it;
                   item_hidden :=
                     negb (PyStr.contains (PyStr.lower (app_search_input x))
                             (PyStr.lower (item_text it))) |})
             (if PyStr.truthy all_apps
              then map (fun pkg =>
                          {| item_text := pkg;
                             item_red :=
                               existsb (String.eqb pkg) (package_names disabled);
                             item_hidden := false |})
                       (sort_by (fun k => k) String.leb (package_names all_apps))
              else [new_item "Could not retrieve apps."]).
Proof.
  intros adb t all_apps disabled.
  set (x0 := with_apps_list [new_item "Loading..."] x).
  destruct (run_adb_command_effect w [adb; "shell"; "pm"; "list"; "packages"]
              true (core x0)) as (s1 & E1 & C1 & T1 & G1).
  set (x1 := with_core s1 x0).
  assert (A1 : adb_path s1 = adb) by apply G1.
  destruct (run_adb_command_effect w
              [adb_path (core x1); "shell"; "pm"; "list"; "packages"; "-d"]
              true (core x1)) as (s2 & E2 & C2 & T2 & G2).
  cbn [core x1 with_core] in E2, C2, T2. rewrite A1 in E2. rewrite T1 in E2.
  cbn [core x0 with_apps_list] in E2.
  fold t in E2.
  destruct (got_captured
              (subprocess_run w t [adb; "shell"; "pm"; "list"; "packages"]))
    as [Ga Ta].
  destruct (got_captured
              (subprocess_run w (S (S t))
                 [adb; "shell"; "pm"; "list"; "packages"; "-d"]))
    as [Gd Td].
  cbn [core x0 with_apps_list] in E1. fold t in E1.
  eexists. split; [|split].
  - unfold refresh_app_list, wbind. fold x0.
    rewrite (lift_run_adb w (fun adb => [adb; "shell"; "pm"; "list"; "packages"])
               true x0 s1 _ E1).
    fold x1.
    erewrite (lift_run_adb w
                (fun adb => [adb; "shell"; "pm"; "list"; "packages"; "-d"])
                true x1 s2).
    + unfold filter_app_list. reflexivity.
    + cbn [core x1 with_core]. rewrite A1. exact E2.
  - cbn [core with_apps_list with_core]. rewrite C2, C1.
    cbn [core x0 with_apps_list]. rewrite A1. now rewrite <- app_assoc.
  - cbn [apps_list app_search_input with_apps_list with_core x1 x0].
    rewrite Ga, Ta, Gd, Td. fold all_apps disabled.
    destruct (PyStr.truthy disabled) eqn:D; [reflexivity|].
    rewrite (truthy_false _ D). reflexivity.
Qed.

(** X11.  [refresh_app_list] asks the device twice ([pm list packages],
    then the same with [-d]) and returns whatever the answers.  If the
    first answer has text, the list shows exactly the package names
    parsed from it, in ascending order; a name is red exactly when it
    is among the names parsed from the second answer; and every item is
    hidden exactly when the search text, lower-cased, does not occur in
    its lower-cased name.  If the first command failed or printed
    nothing, the list holds one item, [Could not retrieve apps.],
    hidden or shown by the same rule. *)
Theorem refresh_app_list_shows_sorted_packages (w : world) (x : window) :
  let adb := adb_path (core x) in
  let t := tick (core x) in
  let all_apps :=
    captured (subprocess_run w t [adb; "shell"; "pm"; "list"; "packages"]) in
  let disabled :=
    captured (subprocess_run w (S (S t))
                [adb; "shell"; "pm"; "list"; "packages"; "-d"]) in
  let x' := snd (refresh_app_list w x) in
  fst (refresh_app_list w x) = Return tt
  /\ subprocess_calls (core x')
     = (subprocess_calls (core x)
        ++ [[adb; "shell"; "pm"; "list"; "packages"];
            [adb; "shell"; "pm"; "list"; "packages"; "-d"]])%list
  /\ (forall it, In it (apps_list x') ->
        item_hidden it
        = negb (PyStr.contains (PyStr.lower (app_search_input x))
                  (PyStr.lower (item_text it))))
  /\ if PyStr.truthy all_apps
     then Permutation (package_names all_apps) (map item_text (apps_list x'))
          /\ StronglySorted (fun a b => String.leb a b = true)
               (map item_text (apps_list x'))
          /\ (forall it, In it (apps_list x') ->
                item_red it = true
                <-> In (item_text it) (package_names disabled))
     else map item_text (apps_list x') = ["Could not retrieve apps."].
Proof.
  intros adb t all_apps disabled x'.
  destruct (refresh_app_list_run w x) as (x1 & E & C & L).
  fold adb t all_apps disabled in C, L.
  subst x'. rewrite E. cbn [fst snd].
  split; [reflexivity|]. split; [exact C|]. split.
  - intros it Hin. rewrite L in Hin. apply in_map_iff in Hin.
    destruct Hin as (it0 & <- & _). reflexivity.
  - rewrite L. rewrite map_map. cbn [item_text].
    destruct (PyStr.truthy all_apps); [|reflexivity].
    rewrite map_map. cbn [item_text]. rewrite map_id.
    split; [apply sort_by_perm|]. split.
    + apply (sort_by_sorted (fun k : string => k) String.leb);
        [exact string_leb_trans|exact String.leb_total].
    + intros it Hin. rewrite map_map in Hin. apply in_map_iff in Hin.
      destruct Hin as (pkg & <- & _). cbn [item_red item_text].
      rewrite existsb_exists. split.
      * intros (y & Hy & He). apply String.eqb_eq in He. now subst y.
      * intros Hy. exists pkg. split; [exact Hy|apply String.eqb_refl].
Qed.

Lemma refresh_app_list_shows_sorted_packages_witness :
  map item_text (apps_list (snd (refresh_app_list device_world (sample_window "com"))))
  = ["com.a"; "com.b"; "org.z"]
  /\ StronglySorted (fun a b => String.leb a b = true)
       (map item_text
          (apps_list (snd (refresh_app_list device_world (sample_window "com"))))).
Proof.
  split; [vm_compute; reflexivity|].
  destruct (refresh_app_list_shows_sorted_packages device_world
              (sample_window "com")) as (_ & _ & _ & H).
  vm_compute in H. vm_compute. exact (proj1 (proj2 H)).
Defined.

Lemma contains_empty s : PyStr.contains "" s = true.
Proof. destruct s; reflexivity. Qed.

(** X12.  [filter_app_list] changes neither the names nor the colours
    of the items, and with an empty search box it hides none. *)
Theorem filter_app_list_empty_search (x : window) :
  map item_text (apps_list (snd (filter_app_list x))) = map item_text (apps_list x)
  /\ map item_red (apps_list (snd (filter_app_list x))) = map item_red (apps_list x)
  /\ (app_search_input x = "" ->
      Forall (fun it => item_hidden it = false)
             (apps_list (snd (filter_app_list x)))).
Proof.
  unfold filter_app_list. cbn [snd apps_list with_apps_list].
  split; [|split].
  - rewrite map_map. cbn [item_text]. reflexivity.
  - rewrite map_map. cbn [item_red]. reflexivity.
  - intros ->. apply Forall_forall. intros it Hin.
    apply in_map_iff in Hin. destruct Hin as (it0 & <- & _).
    cbn [item_hidden PyStr.lower]. now rewrite contains_empty.
Qed.

Lemma filter_app_list_empty_search_witness :
  Forall (fun it => item_hidden it = false)
    (apps_list
       (snd (filter_app_list
               {| core := sample_state ""; wifi_ip_input := "";
                  obb_folder_input := ""; app_search_input := "";
                  apps_list :=
                    [{| item_text := "com.a"; item_red := false;
                        item_hidden := true |};
                     {| item_text := "com.b"; item_red := true;
                        item_hidden := false |}] |}))).
Proof.
  apply (filter_app_list_empty_search
           {| core := sample_state ""; wifi_ip_input := "";
              obb_folder_input := ""; app_search_input := "";
              apps_list :=
                [{| item_text := "com.a"; item_red := false;
                    item_hidden := true |};
                 {| item_text := "com.b"; item_red := true;
                    item_hidden := false |}] |}).
  reflexivity.
Defined.

(** ** Guards of the Connect and Install tabs *)

Lemma log_one_entry w output s :
  PyStr.strip output <> "" ->
  _log w "" output s = (Return tt, snd (_log w "" output s))
  /\ log_output (snd (_log w "" output s))
     = (log_output s
        ++ [("[" ++ now w (tick s) ++ "] > " ++ PyStr.strip output)%string])%list
  /\ subprocess_calls (snd (_log w "" output s)) = subprocess_calls s
  /\ root (snd (_log w "" output s)) = root s.
Proof.
  intros Hne.
  assert (Hs : PyStr.truthy (PyStr.strip output) = true).
  { unfold PyStr.truthy. now destruct (String.eqb_spec (PyStr.strip output) ""). }
  assert (Ho : PyStr.truthy output = true).
  { destruct output; [contradiction Hne; reflexivity|reflexivity]. }
  unfold _log, append_debug. cbn [snd tick with_log_output].
  rewrite Ho, Hs.
  destruct (append_ok w (tick s)); repeat split.
Qed.

(** X13.  [push_obb_folder] pushes only a directory: when the stripped
    path names one, exactly one command is launched, [adb push] of that
    path to [/sdcard/Android/obb/]; when the field is blank or the path
    names a file or nothing, no command is launched and one log entry
    is added.  It returns in every case. *)
Theorem push_obb_folder_only_directories (w : world) (x : window) :
  let source_path := PyStr.strip (obb_folder_input x) in
  let x' := snd (push_obb_folder w x) in
  fst (push_obb_folder w x) = Return tt
  /\ if isdir (core x) source_path
     then subprocess_calls (core x')
          = (subprocess_calls (core x)
             ++ [[adb_path (core x); "push"; source_path;
                  "/sdcard/Android/obb/"]])%list
     else subprocess_calls (core x') = subprocess_calls (core x)
          /\ exists entry,
              log_output (core x') = (log_output (core x) ++ [entry])%list.
Proof.
  intros source_path x'. subst x'. unfold push_obb_folder. fold source_path.
  unfold lift. destruct (PyStr.truthy source_path) eqn:Ht; cbn [negb].
  - unfold bind, get. destruct (isdir (core x) source_path) eqn:D; cbn [negb].
    + destruct (run_adb_command_effect w
                  [adb_path (core x); "push"; source_path; "/sdcard/Android/obb/"]
                  false (core x)) as (s1 & E1 & C1 & _ & G1).
      rewrite E1. cbn [fst snd core with_core]. unfold ret. cbn [fst snd].
      split; [reflexivity|exact C1].
    + set (msg := "Error: The specified path is not a valid folder: "
                  ++ source_path).
      assert (Hm : PyStr.strip msg <> "").
      { unfold PyStr.strip. change (PyStr.lstrip msg) with msg.
        apply rstrip_head. reflexivity. }
      destruct (log_one_entry w msg (core x) Hm) as (E & L & C & R).
      rewrite E. cbn [fst snd core with_core].
      split; [reflexivity|]. split; [exact C|].
      eexists. exact L.
  - assert (D : isdir (core x) source_path = false).
    { rewrite (truthy_false _ Ht). reflexivity. }
    rewrite D.
    assert (Hm : PyStr.strip "No source folder specified." <> "")
      by discriminate.
    destruct (log_one_entry w "No source folder specified." (core x) Hm)
      as (E & L & C & R).
    rewrite E. cbn [fst snd core with_core].
    split; [reflexivity|]. split; [exact C|].
    eexists. exact L.
Qed.

Lemma push_obb_folder_only_directories_witness :
  subprocess_calls (core (snd (push_obb_folder quiet_world (sample_window ""))))
  = [].
Proof.
  destruct (push_obb_folder_only_directories quiet_world (sample_window ""))
    as (_ & H).
  vm_compute in H. vm_compute. exact (proj1 H).
Defined.

(** X14.  [adb_connect_wifi] connects only to an address that is not
    blank: then exactly one command is launched, [adb connect] with the
    stripped address; for a blank field no command is launched and
    [IP address cannot be empty.] is logged.  It returns in both
    cases. *)
Theorem adb_connect_wifi_needs_address (w : world) (x : window) :
  let ip := PyStr.strip (wifi_ip_input x) in
  let x' := snd (adb_connect_wifi w x) in
  fst (adb_connect_wifi w x) = Return tt
  /\ if PyStr.truthy ip
     then subprocess_calls (core x')
          = (subprocess_calls (core x) ++ [[adb_path (core x); "connect"; ip]])%list
     else subprocess_calls (core x') = subprocess_calls (core x)
          /\ log_output (core x')
             = (log_output (core x)
                ++ [("[" ++ now w (tick (core x))
                     ++ "] > IP address cannot be empty.")%string])%list.
Proof.
  intros ip x'. subst x'. unfold adb_connect_wifi. fold ip. unfold lift.
  destruct (PyStr.truthy ip).
  - unfold bind, get.
    destruct (run_adb_command_effect w [adb_path (core x); "connect"; ip]
                false (core x)) as (s1 & E1 & C1 & _ & G1).
    rewrite E1. unfold ret. cbn [fst snd core with_core].
    split; [reflexivity|exact C1].
  - assert (Hm : PyStr.strip "IP address cannot be empty." <> "")
      by discriminate.
    destruct (log_one_entry w "IP address cannot be empty." (core x) Hm)
      as (E & L & C & R).
    rewrite E. cbn [fst snd core with_core].
    split; [reflexivity|]. split; [exact C|exact L].
Qed.

Lemma adb_connect_wifi_needs_address_witness :
  subprocess_calls (core (snd (adb_connect_wifi quiet_world (sample_window ""))))
  = [].
Proof.
  destruct (adb_connect_wifi_needs_address quiet_world (sample_window ""))
    as (_ & H).
  vm_compute in H. vm_compute. exact (proj1 H).
Defined.

(** ** The loop that takes a path apart *)

Lemma parts_loop_parts fuel :
  forall rp parts result,
    Forall (fun p => p <> "") parts ->
    parts_loop fuel rp parts = Some result ->
    Forall (fun p => p <> "") result.
Proof.
  induction fuel as [|fuel IH]; intros rp parts result Hp H; [discriminate|].
  cbn [parts_loop] in H. destruct (PosixPath.split rp) as [rp' tail].
  destruct (PyStr.truthy tail) eqn:Ht.
  - apply (IH rp' (parts ++ [tail])%list); [|exact H].
    apply Forall_app. split; [exact Hp|]. constructor; [|constructor].
    intros ->. discriminate.
  - injection H as <-. destruct (PyStr.truthy rp') eqn:Hr; [|exact Hp].
    apply Forall_app. split; [exact Hp|]. constructor; [|constructor].
    intros ->. discriminate.
Qed.

Lemma lower_not_empty p : p <> "" -> PyStr.lower p <> "".
Proof. destruct p; [congruence|discriminate]. Qed.

(** X15.  The [while True] loop of [_find_obb_package_dirs] that takes
    the directory path apart with [os.path.split] ends for every path,
    after at most one iteration per character and one more, and none of
    the parts it leaves is empty. *)
Theorem path_parts_terminates (r : string) :
  exists parts,
    path_parts r = Some parts /\ Forall (fun p => p <> "") parts.
Proof.
  unfold path_parts.
  destruct (parts_loop (S (String.length r)) r []) as [parts|] eqn:E.
  - exists (rev (map PyStr.lower parts)). split; [reflexivity|].
    apply Forall_rev. apply Forall_map.
    pose proof (parts_loop_parts _ _ _ _ (Forall_nil _) E) as H.
    eapply Forall_impl; [|exact H]. intros p. apply lower_not_empty.
  - exfalso. revert E. apply parts_loop_total. lia.
Qed.

(** ** A command that prints nothing *)

Lemma strip_blank_output a b :
  forallb PyStr.isspace (list_ascii_of_string a) = true ->
  forallb PyStr.isspace (list_ascii_of_string b) = true ->
  PyStr.strip (PyStr.strip a ++ nl ++ PyStr.strip b) = "".
Proof. intros Ha Hb. now rewrite (strip_blank a Ha), (strip_blank b Hb). Qed.

(** X17.  When a command runs and prints nothing but blanks on both of
    its outputs, [run_adb_command] shows its command line and nothing
    else in the log: no empty output entry is added. *)
Theorem run_adb_command_quiet
  (w : world) (args : list string) (return_output : bool) (s : state)
  (result : completed) :
  subprocess_run w (tick s) args = Return result ->
  forallb PyStr.isspace (list_ascii_of_string (stdout result)) = true ->
  forallb PyStr.isspace (list_ascii_of_string (stderr result)) = true ->
  PyStr.join " " args <> "" ->
  log_output (snd (run_adb_command w args return_output s))
  = (log_output s
     ++ [("[" ++ now w (S (tick s)) ++ "] $ " ++ PyStr.join " " args)%string])%list
  /\ dialogs (snd (run_adb_command w args return_output s)) = dialogs s.
Proof.
  intros Hrun Ho He Hj.
  assert (Hc : PyStr.truthy (PyStr.join " " args) = true).
  { unfold PyStr.truthy. now destruct (String.eqb_spec (PyStr.join " " args) ""). }
  unfold run_adb_command, try_except, bind, call_subprocess. rewrite Hrun.
  unfold _log, append_debug, ret.
  cbn [snd tick with_tick with_subprocess_calls with_log_output log_output].
  rewrite Hc, (strip_blank_output _ _ Ho He).
  cbn [PyStr.truthy String.eqb negb andb].
  rewrite andb_false_r.
  destruct (append_ok w (S (tick s))); cbn; rewrite ?app_nil_r; split; reflexivity.
Qed.

Lemma run_adb_command_quiet_witness :
  log_output
    (snd (run_adb_command
            {| now := fun _ => "12:00:00"; append_ok := fun _ => true;
               append_error := fun _ => "";
               subprocess_run := fun _ _ => Return {| stdout := ""; stderr := " " |};
               gettempdir := "/tmp"; mkdtemp_suffix := fun _ => "";
               rmtree_leaves := fun _ => None |}
            ["adb"; "reboot"] false (sample_state "")))
  = ["[12:00:00] $ adb reboot"].
Proof.
  apply (run_adb_command_quiet
           {| now := fun _ => "12:00:00"; append_ok := fun _ => true;
              append_error := fun _ => "";
              subprocess_run := fun _ _ => Return {| stdout := ""; stderr := " " |};
              gettempdir := "/tmp"; mkdtemp_suffix := fun _ => "";
              rmtree_leaves := fun _ => None |}
           ["adb"; "reboot"] false (sample_state "")
           {| stdout := ""; stderr := " " |});
    [reflexivity|reflexivity|reflexivity|discriminate].
Defined.

(** ** The commands of a split installation *)

Lemma extract_frame w path s d s1 :
  _extract_zip_to_temp w path s = (Return d, s1) ->
  subprocess_calls s1 = subprocess_calls s /\ adb_path s1 = adb_path s.
Proof.
  unfold _extract_zip_to_temp, bind, mkdtemp, extractall, ret.
  destruct (FS.exists_ (root s) (cwd s) _); [discriminate|].
  destruct (FS.put_at _ (FS.Dir []) (root s)) as [r1|]; [|discriminate].
  simpl.
  destruct (FS.resolve r1 (cwd s) path) as [[[tree|]|es]|]; try discriminate.
  simpl. destruct (FS.put_at _ (FS.Dir tree) r1) as [r2|]; [|discriminate].
  intros [= _ <-]. split; reflexivity.
Qed.

Lemma handler_keeps_calls w ext path e s :
  subprocess_calls (snd (on_split_error w ext path e s)) = subprocess_calls s.
Proof.
  unfold on_split_error.
  destruct (kind e); unfold bind, critical, modify; cbv beta iota;
    match goal with
    | |- context [_log w "" ?m ?st] =>
        destruct (log_keeps_calls w "" m st) as [C _]; exact C
    end.
Qed.

Lemma log_frame w command output s :
  _log w command output s = (Return tt, snd (_log w command output s))
  /\ subprocess_calls (snd (_log w command output s)) = subprocess_calls s
  /\ adb_path (snd (_log w command output s)) = adb_path s
  /\ root (snd (_log w command output s)) = root s
  /\ cwd (snd (_log w command output s)) = cwd s.
Proof.
  unfold _log, append_debug. cbn [snd tick with_log_output].
  destruct (append_ok w (tick s)); repeat split.
Qed.

(** X18.  Once the archive is extracted and holds packages,
    [install_app] launches one [adb install-multiple] with all of them,
    in the order of [_collect_apk_files].  If that command cannot be
    run at all, nothing further is launched; if it runs, whatever its
    result, the assets of each detected package are pushed, in the
    mapping's order. *)
Theorem split_install_commands
  (w : world) (s s1 : state) (ext d : string) :
  let path := PyStr.strip (install_apk_input s) in
  let files := _collect_apk_files (root s1) (cwd s1) d in
  let cmd := (adb_path s :: "install-multiple" :: files)%list in
  PyStr.lower (snd (PosixPath.splitext path)) = ext ->
  ext = ".apkm" \/ ext = ".xapk" ->
  _extract_zip_to_temp w path s = (Return d, s1) ->
  files <> [] ->
  subprocess_calls (snd (install_app w s))
  = (subprocess_calls s ++ [cmd]
     ++ match subprocess_run w (tick s1) cmd with
        | Raise _ => []
        | Return _ =>
            flat_map (push_commands (adb_path s))
                     (_find_obb_package_dirs (root s1) (cwd s1) d)
        end)%list.
Proof.
  intros path files cmd Hext Hkind Hx Hfiles.
  destruct (extract_frame _ _ _ _ _ Hx) as [C0 A0].
  assert (Ht : PyStr.truthy path = true).
  { destruct path eqn:E; [|reflexivity].
    destruct Hkind as [K|K]; rewrite K in Hext; discriminate. }
  assert (Hsplit : install_app w s = install_split w ext path s).
  { unfold install_app, bind, get. fold path. rewrite Ht. simpl. rewrite Hext.
    destruct Hkind as [->| ->]; reflexivity. }
  rewrite Hsplit. unfold install_split. rewrite Hx.
  assert (Hcalls : forall (c : M unit) s2,
             subprocess_calls
               (snd (try_finally c (split_cleanup w (Some d)) s2))
             = subprocess_calls (snd (c s2))).
  { intros c s2. unfold try_finally. destruct (c s2) as [r s3].
    unfold split_cleanup. destruct (PyStr.truthy d); [|reflexivity].
    unfold rmtree, modify. cbn [snd].
    destruct (rmtree_leaves w (tick s3)) as [kept|]; [|reflexivity].
    destruct (FS.put_at (FS.components d) (FS.Dir kept) (root s3));
      reflexivity. }
  rewrite Hcalls. unfold try_except, install_extracted.
  unfold bind at 1. unfold get at 1. fold files.
  destruct files as [|f fs] eqn:Hf; [congruence|].
  unfold bind at 1. unfold bind at 1. unfold get at 1. rewrite A0.
  unfold bind at 1. fold cmd.
  unfold call_subprocess at 1.
  set (s2 := with_tick (S (tick s1))
               (with_subprocess_calls (subprocess_calls s1 ++ [cmd])%list s1)).
  destruct (subprocess_run w (tick s1) cmd) as [result|e].
  - destruct (log_frame w (PyStr.join " " cmd)
                (PyStr.strip (stdout result) ++ nl ++ PyStr.strip (stderr result))
                s2) as (E3 & C3 & A3 & R3 & W3).
    rewrite E3.
    set (s3 := snd (_log w (PyStr.join " " cmd)
                      (PyStr.strip (stdout result) ++ nl
                       ++ PyStr.strip (stderr result)) s2)) in *.
    unfold bind at 1. unfold get at 1. rewrite R3, W3.
    change (root s2) with (root s1). change (cwd s2) with (cwd s1).
    destruct (_find_obb_package_dirs (root s1) (cwd s1) d) as [|e0 es] eqn:Hd.
    + destruct (log_frame w "" "No OBB assets detected in this package." s3)
        as (E4 & C4 & _).
      rewrite E4. cbn [snd]. rewrite C4, C3. cbn [subprocess_calls s2 with_tick
        with_subprocess_calls]. rewrite C0. simpl. reflexivity.
    + set (msg := "Detected OBB packages: "
                  ++ PyStr.join ", "
                       (sort_by (fun k => k) String.leb (map fst (e0 :: es)))).
      destruct (log_frame w "" msg s3) as (E4 & C4 & A4 & _).
      unfold bind at 1. rewrite E4.
      destruct (push_obb_dirs_effect w (e0 :: es)
                  (snd (_log w "" msg s3))) as [R5 C5].
      destruct (_push_obb_dirs w (e0 :: es) (snd (_log w "" msg s3)))
        as [r5 s5] eqn:E5.
      cbn [fst snd] in *. subst r5. cbn [snd].
      rewrite C5, C4, C3, A4, A3.
      cbn [subprocess_calls adb_path s2 with_tick with_subprocess_calls].
      rewrite C0, A0. now rewrite <- app_assoc.
  - rewrite handler_keeps_calls.
    cbn [subprocess_calls s2 with_tick with_subprocess_calls].
    now rewrite C0.
Qed.

Lemma split_install_commands_witness :
  subprocess_calls (snd (install_app hostile_world (sample_state "game.xapk")))
  = [["/opt/sageadb/adb.exe"; "install-multiple";
      "/tmp/sageadb_ab12cd34/base.apk"; "/tmp/sageadb_ab12cd34/split1.apk"]].
Proof.
  apply (split_install_commands hostile_world (sample_state "game.xapk")
           (snd (_extract_zip_to_temp hostile_world "game.xapk"
                   (sample_state "game.xapk")))
           ".xapk" "/tmp/sageadb_ab12cd34").
  - reflexivity.
  - now right.
  - reflexivity.
  - vm_compute. discriminate.
Defined.

(** X19.  Only the split strategy runs file operations of its own: for
    a path whose extension is neither [.apkm] nor [.xapk],
    [install_app] makes no extraction directory and removes nothing, so
    the tree, which here only [mkdtemp], [extractall] and [rmtree]
    change ([debug.txt] and the doings of child processes aside), is as
    before; and it only adds to the records. *)
Theorem install_app_other_formats_keep_files (w : world) (s : state) :
  let ext :=
    PyStr.lower (snd (PosixPath.splitext (PyStr.strip (install_apk_input s)))) in
  ext <> ".apkm" -> ext <> ".xapk" ->
  root (snd (install_app w s)) = root s /\ grows s (snd (install_app w s)).
Proof.
  intros ext H1 H2.
  assert (G : grows s (snd (install_app w s))); [|split; [apply G|exact G]].
  unfold install_app, bind at 1, get at 1. fold ext.
  destruct (negb (PyStr.truthy (PyStr.strip (install_apk_input s)))).
  { apply (returns_keeps _ (returns_log w "" "No APK path specified.")). }
  destruct (String.eqb ext ".apk").
  { apply (returns_keeps
             (bind (get adb_path)
                (fun adb =>
                   bind (run_adb_command w
                           [adb; "install"; PyStr.strip (install_apk_input s)]
                           false)
                     (fun _ => ret tt)))).
    apply returns_bind; [apply returns_get|]. intros adb.
    apply returns_bind; [apply returns_run_adb_command|]. intros _.
    apply returns_ret. }
  destruct (String.eqb ext ".apks").
  { apply (returns_keeps _ (returns_install_apks w _)). }
  destruct (String.eqb_spec ext ".apkm"); [contradiction|].
  destruct (String.eqb_spec ext ".xapk"); [contradiction|].
  cbn [orb]. apply (returns_keeps _ (returns_log w "" _)).
Qed.

Lemma install_app_other_formats_keep_files_witness :
  root (snd (install_app hostile_world (sample_state "game.apk"))) = sample_root.
Proof.
  apply (install_app_other_formats_keep_files hostile_world
           (sample_state "game.apk")); discriminate.
Defined.
